(** * HR data processing pipeline: a shallow embedding of
    [scripts/data_processor.py] and [scripts/quick_test.py].

    The pipeline is the class [HRDataProcessor]: a pandas data frame
    [self.df] and a list [self.processing_log], both mutated by a fixed
    chain of stage methods.  The embedding keeps that shape: a record
    [Processor] for the object, a state-and-exception monad [M] for the
    methods (a Python exception leaves the mutations made so far in
    place), and one function per pandas operation the stages call.

    Numbers are exact rationals ([Qc], canonical so that equal numbers are
    equal terms); pandas' float64 rounding is outside this model.  A
    missing cell (NaN) is an absent key of the record. *)

From Stdlib Require Import QArith Qcanon Qcabs Qround Lqa.
From stdpp Require Import base decidable option list numbers strings gmap sorting.

Open Scope string_scope.
Open Scope list_scope.
Open Scope nat_scope.

(** ** Data model *)

(** A cell that is present: a number or a string. *)
Inductive value :=
| VNum (q : Qc)
| VStr (s : string).

#[global] Instance value_eq_dec : EqDecision value.
Proof. solve_decision. Defined.

(** A record maps field names to present values; a field that does not
    occur is missing ([isnull] is true there). *)
Abbreviation record := (gmap string value).

(** [self.df]: the column index, in order, and the rows, in order. *)
Record DataFrame := mkDataFrame {
  columns : list string;
  rows : list record
}.

(** The exceptions the stages can raise. *)
Inductive exn :=
| KeyError (key : string)
| TypeError
| ValueError (msg : string)
| ZeroDivisionError.

Inductive result (A : Type) :=
| Ok (a : A)
| Raise (e : exn).
Arguments Ok {A} a.
Arguments Raise {A} e.

(** One constructor per f-string appended to [processing_log]; the
    arguments are the interpolated values. *)
Inductive log_entry :=
| LogLoaded (nrows ncols : nat)
| LogFoundDuplicates (n : nat)
| LogMissingFound
| LogMissingColumn (col : string) (count total : nat)
| LogRemovedDuplicates (n : nat)
| LogFilledIncome (n : nat)
| LogFilledSatisfaction (n : nat) (mode : value)
| LogStandardizedDepartment
| LogStandardizedGender
| LogFixedNegative (n : nat)
| LogCreatedAgeGroup
| LogCreatedIncomeCategory
| LogSaved (path : string).

(** The object [HRDataProcessor] ([start_time] is wall-clock time and is
    left out). *)
Record Processor := mkProcessor {
  input_path : string;
  output_path : string;
  df : DataFrame;
  original_shape : nat * nat;
  processing_log : list log_entry
}.

(** ** The monad of stage methods *)

Definition M (A : Type) : Type := Processor -> Processor * result A.

Definition ret {A} (a : A) : M A := fun st => (st, Ok a).

Definition bind {A B} (m : M A) (k : A -> M B) : M B :=
  fun st =>
    match m st with
    | (st', Ok a) => k a st'
    | (st', Raise e) => (st', Raise e)
    end.

Definition get_df : M DataFrame := fun st => (st, Ok (df st)).

Definition set_df (d : DataFrame) : M unit :=
  fun st =>
    (mkProcessor (input_path st) (output_path st) d
       (original_shape st) (processing_log st), Ok tt).

(** [self.processing_log.append(e)] *)
Definition log_append (e : log_entry) : M unit :=
  fun st =>
    (mkProcessor (input_path st) (output_path st) (df st)
       (original_shape st) (processing_log st ++ [e]), Ok tt).

(** Lift a pandas call that may raise. *)
Definition lift {A} (r : result A) : M A := fun st => (st, r).

Notation "'do' x <- m ; k" := (bind m (fun x => k))
  (at level 10, x name, m at level 100, k at level 200).

Definition when (b : bool) (m : M unit) : M unit :=
  if b then m else ret tt.

Fixpoint for_each {A} (l : list A) (body : A -> M unit) : M unit :=
  match l with
  | [] => ret tt
  | x :: l' => do _ <- body x; for_each l' body
  end.

(** ** pandas operations on the rows *)

(** [df[c]]: the cells of column [c], [None] where missing. *)
Definition column (c : string) (rs : list record) : list (option value) :=
  (fun r : record => r !! c) <$> rs.

(** [df[c] = cells]: assignment of a whole column, cell by cell. *)
Definition set_cell (c : string) (r : record) (v : option value) : record :=
  match v with
  | Some x => <[c := x]> r
  | None => delete c r
  end.

Definition set_column (c : string) (cells : list (option value))
    (d : DataFrame) : DataFrame :=
  mkDataFrame
    (if bool_decide (c ∈ columns d) then columns d else columns d ++ [c])
    (zip_with (set_cell c) (rows d) cells).
Arguments set_column : simpl never.

(** [df[mask]]: boolean indexing. *)
Fixpoint boolean_index {A} (l : list A) (mask : list bool) : list A :=
  match l, mask with
  | x :: l', b :: mask' =>
      if b then x :: boolean_index l' mask' else boolean_index l' mask'
  | _, _ => []
  end.

(** [df.duplicated()] with [keep='first']: a row is flagged when an equal
    row was seen before it; missing cells compare equal. *)
Fixpoint duplicated_from (seen : list record) (rs : list record) : list bool :=
  match rs with
  | [] => []
  | r :: rs' => bool_decide (r ∈ seen) :: duplicated_from (r :: seen) rs'
  end.

Definition duplicated (rs : list record) : list bool := duplicated_from [] rs.

(** [.sum()] of a boolean series. *)
Definition sum_bool (mask : list bool) : nat :=
  length (filter (fun b : bool => b = true) mask).

(** [df.drop_duplicates()] is [df[~df.duplicated()]]. *)
Definition drop_duplicates (rs : list record) : list record :=
  boolean_index rs (negb <$> duplicated rs).

(** [df[c].isnull().sum()] *)
Definition isnull (c : string) (rs : list record) : list bool :=
  (fun o : option value => bool_decide (o = None)) <$> column c rs.

Definition count_missing (c : string) (rs : list record) : nat :=
  sum_bool (isnull c rs).

(** ** Stages: Assess and Deduplicate *)

(** [data_quality_assessment] *)
Definition data_quality_assessment : M unit :=
  do d <- get_df;
  let duplicates := sum_bool (duplicated (rows d)) in
  do _ <- log_append (LogFoundDuplicates duplicates);
  let missing_summary :=
    (fun c => (c, count_missing c (rows d))) <$> columns d in
  let missing_cols :=
    filter (fun p : string * nat => 0 < p.2) missing_summary in
  when (negb (bool_decide (missing_cols = [])))
    (do _ <- log_append LogMissingFound;
     for_each missing_cols
       (fun p => log_append (LogMissingColumn p.1 p.2 (length (rows d))))).

(** [remove_duplicates] *)
Definition remove_duplicates : M unit :=
  do d <- get_df;
  let initial_count := length (rows d) in
  let d' := mkDataFrame (columns d) (drop_duplicates (rows d)) in
  do _ <- set_df d';
  let removed := initial_count - length (rows d') in
  log_append (LogRemovedDuplicates removed).

(** ** pandas operations on numeric series *)

Definition result_bind {A B} (r : result A) (k : A -> result B) : result B :=
  match r with
  | Ok a => k a
  | Raise e => Raise e
  end.

Fixpoint result_mapM {A B} (f : A -> result B) (l : list A) : result (list B) :=
  match l with
  | [] => Ok []
  | x :: l' =>
      result_bind (f x) (fun y =>
      result_bind (result_mapM f l') (fun ys => Ok (y :: ys)))
  end.

(** Reading a cell as a number; a string in a numeric reduction or
    comparison is a [TypeError]. *)
Definition to_number (o : option value) : result (option Qc) :=
  match o with
  | None => Ok None
  | Some (VNum q) => Ok (Some q)
  | Some (VStr _) => Raise TypeError
  end.

Definition to_numeric (cells : list (option value)) : result (list (option Qc)) :=
  result_mapM to_number cells.

Definition of_numeric (nums : list (option Qc)) : list (option value) :=
  (fun o : option Qc => VNum <$> o) <$> nums.

(** [dropna]: the present cells, in order. *)
Definition dropna {A} (cells : list (option A)) : list A := omap id cells.

(** [x.fillna(v)]; filling with NaN ([None]) changes nothing. *)
Definition fillna {A} (v : option A) (cells : list (option A)) : list (option A) :=
  (fun o => match o with Some _ => o | None => v end) <$> cells.

Definition Qc_of_nat (n : nat) : Qc := Q2Qc (inject_Z (Z.of_nat n)).

Definition sort_values (l : list Qc) : list Qc := merge_sort Qcle l.

(** [x.median()], missing cells skipped; NaN ([None]) when none is left.
    The mean of the two middle values is the exact one; the float64 that
    pandas returns can differ from it in the last place. *)
Definition median (cells : list (option Qc)) : option Qc :=
  let s := sort_values (dropna cells) in
  let n := length s in
  if bool_decide (n = 0) then None
  else if Nat.odd n then s !! (n / 2)
  else
    match s !! (n / 2 - 1), s !! (n / 2) with
    | Some a, Some b => Some ((a + b) / Q2Qc 2)%Qc
    | _, _ => None
    end.

(** A bin edge: a number, [float('inf')], or NaN. *)
Inductive edge :=
| Finite (q : Qc)
| PosInf
| NaNEdge.

#[global] Instance edge_eq_dec : EqDecision edge.
Proof. solve_decision. Defined.

(** [x.quantile(q)] with the default linear interpolation. *)
Definition quantile (cells : list (option Qc)) (q : Qc) : edge :=
  let s := sort_values (dropna cells) in
  match s with
  | [] => NaNEdge
  | x0 :: _ =>
      let pos := (Qc_of_nat (length s - 1) * q)%Qc in
      let lo := Z.to_nat (Qfloor pos) in
      let frac := (pos - Qc_of_nat lo)%Qc in
      let a := nth lo s x0 in
      let b := nth (lo + 1) s a in
      Finite (a + (b - a) * frac)%Qc
  end.

(** Strict order of edges; comparisons with NaN are false. *)
Definition edge_lt (a b : edge) : bool :=
  match a, b with
  | Finite x, Finite y => bool_decide (x < y)%Qc
  | Finite _, PosInf => true
  | _, _ => false
  end.

Definition edge_le (a b : edge) : bool :=
  match a, b with
  | NaNEdge, _ | _, NaNEdge => false
  | _, _ => edge_lt a b || bool_decide (a = b)
  end.

Fixpoint is_monotonic_increasing (bins : list edge) : bool :=
  match bins with
  | a :: (b :: _) as rest => edge_le a b && is_monotonic_increasing rest
  | [a] => negb (bool_decide (a = NaNEdge))
  | [] => true
  end.

(** [bins.searchsorted(x, side='left')] on increasing bins: the number of
    edges strictly below [x]. *)
Definition searchsorted_left (bins : list edge) (x : Qc) : nat :=
  length (filter (fun b => edge_lt b (Finite x) = true) bins).

(** One cell of [pd.cut(x, bins, labels)] with the defaults [right=True],
    [include_lowest=False]: bin [i] is the interval (bins[i-1], bins[i]]. *)
Definition cut_cell (bins : list edge) (labels : list string)
    (o : option Qc) : option value :=
  match o with
  | None => None
  | Some x =>
      let ids := searchsorted_left bins x in
      if bool_decide (ids = 0) || bool_decide (ids = length bins) then None
      else VStr <$> labels !! (ids - 1)
  end.

(** [pd.cut(x, bins=..., labels=...)] for a list of bin edges. *)
Definition cut (x : list (option Qc)) (bins : list edge)
    (labels : list string) : result (list (option value)) :=
  if negb (is_monotonic_increasing bins) then
    Raise (ValueError "bins must increase monotonically.")
  else if negb (bool_decide (NoDup bins)) then
    Raise (ValueError "Bin edges must be unique")
  else if negb (bool_decide (length labels = length bins - 1)) then
    Raise (ValueError "Bin labels must be one fewer than the number of bin edges")
  else Ok (cut_cell bins labels <$> x).
Arguments cut : simpl never.

(** ** pandas operations used by Impute *)

(** The rows of one group of [df.groupby(key)]. *)
Definition in_group (key : string) (k : value) (r : record) : Prop :=
  r !! key = Some k.

#[global] Instance in_group_dec key k r : Decision (in_group key k r).
Proof. unfold in_group. apply _. Defined.

(** The group keys of [df.groupby(key)]: the distinct present values
    (rows whose key is missing belong to no group, [dropna=True]). *)
Definition group_keys (key : string) (rs : list record) : list value :=
  remove_dups (dropna (column key rs)).

(** The series [col] of the group with key [k]. *)
Definition group (key col : string) (rs : list record) (k : value)
    : list (option value) :=
  column col (filter (in_group key k) rs).

Fixpoint assoc {A} (k : value) (l : list (value * A)) : option A :=
  match l with
  | [] => None
  | (k', a) :: l' => if bool_decide (k' = k) then Some a else assoc k l'
  end.

(** Writing the transformed groups back at the positions of their rows:
    a row takes the cell of its group's output at its rank in the group;
    a row in no group gets NaN. *)
Fixpoint scatter (key : string) (outs : list (value * list (option value)))
    (seen rs : list record) : list (option value) :=
  match rs with
  | [] => []
  | r :: rs' =>
      match r !! key with
      | None => None
      | Some k =>
          match assoc k outs with
          | None => None
          | Some out =>
              mjoin (out !! length (filter (in_group key k) seen))
          end
      end :: scatter key outs (seen ++ [r]) rs'
  end.

(** [df.groupby(key)[col].transform(f)]: [f] runs on each group's series;
    an exception of [f] propagates. *)
Definition groupby_transform (key col : string)
    (f : list (option value) -> result (list (option value)))
    (rs : list record) : result (list (option value)) :=
  result_bind
    (result_mapM
       (fun k => result_bind (f (group key col rs k)) (fun out => Ok (k, out)))
       (group_keys key rs))
    (fun outs => Ok (scatter key outs [] rs)).

(** [lambda x: x.fillna(x.median())] *)
Definition fill_with_median (x : list (option value))
    : result (list (option value)) :=
  result_bind (to_numeric x) (fun nums =>
    Ok (fillna (VNum <$> median nums) x)).

(** The order in which [mode] lists tied values: numbers by size, strings
    lexicographically. *)
Definition value_le (a b : value) : Prop :=
  match a, b with
  | VNum x, VNum y => (x <= y)%Qc
  | VNum _, VStr _ => True
  | VStr _, VNum _ => False
  | VStr s, VStr t => String.leb s t = true
  end.

#[global] Instance value_le_dec : RelDecision value_le.
Proof. intros [x|s] [y|t]; simpl; apply _. Defined.

(** [x.value_counts()] over the present cells. *)
Definition value_counts (present : list value) : list (value * nat) :=
  (fun v => (v, length (filter (fun w => w = v) present))) <$> remove_dups present.

(** [x.mode()]: the most frequent present values, sorted; empty when every
    cell is missing. *)
Definition mode (cells : list (option value)) : list value :=
  let counts := value_counts (dropna cells) in
  let best := max_list (snd <$> counts) in
  merge_sort value_le (fst <$> filter (fun p : value * nat => p.2 = best) counts).

(** [s[0]] on a series with the default index. *)
Definition getitem0 {A} (s : list A) : result A :=
  match s with
  | [] => Raise (KeyError "0")
  | x :: _ => Ok x
  end.

(** [df.groupby(key)]: the key must be a column. *)
Definition groupby (key : string) (d : DataFrame) : result (list record) :=
  if bool_decide (key ∈ columns d) then Ok (rows d)
  else Raise (KeyError key).

(** ** Stage: Impute *)

(** The block "Handle missing MonthlyIncome - fill with median by JobRole". *)
Definition fill_missing_income : M unit :=
  do d <- get_df;
  when (bool_decide ("MonthlyIncome" ∈ columns d))
    (let missing_income := count_missing "MonthlyIncome" (rows d) in
     when (bool_decide (0 < missing_income))
       (do filled <- lift
          (result_bind (groupby "JobRole" d)
             (groupby_transform "JobRole" "MonthlyIncome" fill_with_median));
        do _ <- set_df (set_column "MonthlyIncome" filled d);
        log_append (LogFilledIncome missing_income))).

(** The block "Handle missing JobSatisfaction - fill with most common
    value (mode)".  The [fillna(..., inplace=True)] on [df[col]] is taken
    to write through to the frame, as it does before pandas 3; see
    [fill_missing_satisfaction_under] for the block under copy-on-write. *)
Definition fill_missing_satisfaction : M unit :=
  do d <- get_df;
  when (bool_decide ("JobSatisfaction" ∈ columns d))
    (let missing_satisfaction := count_missing "JobSatisfaction" (rows d) in
     when (bool_decide (0 < missing_satisfaction))
       (do mode_satisfaction <- lift
          (getitem0 (mode (column "JobSatisfaction" (rows d))));
        do _ <- set_df
          (set_column "JobSatisfaction"
             (fillna (Some mode_satisfaction)
                (column "JobSatisfaction" (rows d))) d);
        log_append (LogFilledSatisfaction missing_satisfaction mode_satisfaction))).

(** [handle_missing_values] *)
Definition handle_missing_values : M unit :=
  do _ <- fill_missing_income;
  fill_missing_satisfaction.

(** ** Stage: Standardize *)

Definition dept_mapping : gmap string string :=
  list_to_map
    [("SALES", "Sales");
     ("sales", "Sales");
     ("RESEARCH & DEVELOPMENT", "Research & Development");
     ("research & development", "Research & Development");
     ("HUMAN RESOURCES", "Human Resources");
     ("human resources", "Human Resources")].

Definition gender_mapping : gmap string string :=
  list_to_map
    [("M", "Male"); ("F", "Female"); ("m", "Male"); ("f", "Female")].

(** One cell of [series.replace(mapping)]: a cell equal to a key of the
    dict becomes the dict's value there, any other cell stays. *)
Definition replace_value (mapping : gmap string string) (v : value) : value :=
  match v with
  | VStr s =>
      match mapping !! s with
      | Some t => VStr t
      | None => v
      end
  | VNum _ => v
  end.

Definition replace (mapping : gmap string string)
    (cells : list (option value)) : list (option value) :=
  (fun o : option value => replace_value mapping <$> o) <$> cells.

(** [x < 0]; a comparison with NaN is false. *)
Definition lt_zero (o : option Qc) : bool :=
  match o with
  | Some q => bool_decide (q < 0)%Qc
  | None => false
  end.

(** [(x < 0).sum()] *)
Definition count_negative (nums : list (option Qc)) : nat :=
  sum_bool (lt_zero <$> nums).

(** The block "Standardize Department names". *)
Definition standardize_department : M unit :=
  do d <- get_df;
  when (bool_decide ("Department" ∈ columns d))
    (do _ <- set_df
       (set_column "Department"
          (replace dept_mapping (column "Department" (rows d))) d);
     log_append LogStandardizedDepartment).

(** The block "Standardize Gender values". *)
Definition standardize_gender : M unit :=
  do d <- get_df;
  when (bool_decide ("Gender" ∈ columns d))
    (do _ <- set_df
       (set_column "Gender"
          (replace gender_mapping (column "Gender" (rows d))) d);
     log_append LogStandardizedGender).

(** The block "Ensure MonthlyIncome is positive".  [abs] is the
    mathematical absolute value; that of an integer column returns the
    least 64-bit integer as it is ([numpy_abs] below). *)
Definition fix_negative_income : M unit :=
  do d <- get_df;
  when (bool_decide ("MonthlyIncome" ∈ columns d))
    (do nums <- lift (to_numeric (column "MonthlyIncome" (rows d)));
     let negative_incomes := count_negative nums in
     when (bool_decide (0 < negative_incomes))
       (do _ <- set_df
          (set_column "MonthlyIncome"
             (of_numeric ((fun o : option Qc => Qcabs <$> o) <$> nums)) d);
        log_append (LogFixedNegative negative_incomes))).

(** [standardize_data] *)
Definition standardize_data : M unit :=
  do _ <- standardize_department;
  do _ <- standardize_gender;
  fix_negative_income.

(** ** Stage: Derive *)

Definition age_bins : list edge :=
  [Finite (Q2Qc 0); Finite (Q2Qc 30); Finite (Q2Qc 40); Finite (Q2Qc 50);
   Finite (Q2Qc 100)].

Definition age_labels : list string := ["Under 30"; "30-40"; "40-50"; "50+"].

Definition income_labels : list string := ["Low"; "Medium"; "High"; "Very High"].

(** The bins of the income cut: [0], the three quartiles, [float('inf')]. *)
Definition income_bins (incomes : list (option Qc)) : list edge :=
  [Finite (Q2Qc 0);
   quantile incomes (Q2Qc (1 # 4));
   quantile incomes (Q2Qc (1 # 2));
   quantile incomes (Q2Qc (3 # 4));
   PosInf].

(** The block "Create age groups". *)
Definition create_age_group : M unit :=
  do d <- get_df;
  when (bool_decide ("Age" ∈ columns d))
    (do ages <- lift (to_numeric (column "Age" (rows d)));
     do age_group <- lift (cut ages age_bins age_labels);
     do _ <- set_df (set_column "AgeGroup" age_group d);
     log_append LogCreatedAgeGroup).

(** The block "Create income categories". *)
Definition create_income_category : M unit :=
  do d <- get_df;
  when (bool_decide ("MonthlyIncome" ∈ columns d))
    (do incomes <- lift (to_numeric (column "MonthlyIncome" (rows d)));
     do income_category <- lift (cut incomes (income_bins incomes) income_labels);
     do _ <- set_df (set_column "IncomeCategory" income_category d);
     log_append LogCreatedIncomeCategory).

(** [create_derived_features] *)
Definition create_derived_features : M unit :=
  do _ <- create_age_group;
  create_income_category.

(** ** Load, Persist, Report and the driver *)

(** [load_data], with the parsed content of the input file as argument. *)
Definition load_data (raw : DataFrame) : M unit :=
  fun st =>
    let shape := (length (rows raw), length (columns raw)) in
    (mkProcessor (input_path st) (output_path st) raw shape
       (processing_log st ++ [LogLoaded shape.1 shape.2]), Ok tt).

(** [save_processed_data]: the frame is written out as it is; only the
    log changes.  The files are not modelled, nor the exceptions of
    [os.makedirs] and [pd.ExcelWriter] on an output path without a
    directory part or without a workbook extension after the replacement;
    the output path of [main] has both. *)
Definition save_processed_data : M unit :=
  fun st => log_append (LogSaved (output_path st)) st.

(** [generate_processing_report]: the report is a file; of its arithmetic
    only the retention ratio [df.shape[0] / original_shape[0]] is kept,
    the divisions by the elapsed time are not modelled. *)
Definition generate_processing_report : M unit :=
  fun st =>
    if bool_decide ((original_shape st).1 = 0) then (st, Raise ZeroDivisionError)
    else (st, Ok tt).

(** [HRDataProcessor(input_path, output_path)], with an empty frame for
    the [None] that [df] holds before [load_data]. *)
Definition new_processor (input output : string) : Processor :=
  mkProcessor input output (mkDataFrame [] []) (0, 0) [].

(** [main]: the chain of stage calls on a fresh processor. *)
Definition main (raw : DataFrame) : Processor * result unit :=
  (do _ <- load_data raw;
   do _ <- data_quality_assessment;
   do _ <- remove_duplicates;
   do _ <- handle_missing_values;
   do _ <- standardize_data;
   do _ <- create_derived_features;
   do _ <- save_processed_data;
   generate_processing_report)
    (new_processor "data/raw/hr_data_raw.csv" "data/processed/hr_data_clean.csv").

(** [quick_verification] of [quick_test.py] on the cleaned frame read
    back: row count, columns, the "No duplicates" flag, total missing. *)
Definition quick_verification (clean : DataFrame)
    : nat * list string * bool * nat :=
  (length (rows clean),
   columns clean,
   bool_decide (sum_bool (duplicated (rows clean)) = 0),
   sum_list ((fun c => count_missing c (rows clean)) <$> columns clean)).

(** ** Specification-side definitions *)

(** The Deduplicate stage in the words of its description: the rows that
    equal no earlier row, in their original order. *)
Definition first_occurrences (rs : list record) : list record :=
  (filter (fun p : nat * record => p.2 ∉ take p.1 rs) (imap pair rs)).*2.

(** The age bins as the Derive stage is described: half-open on the right,
    the last one closed. *)
Definition age_group_described (age : Qc) : option string :=
  if bool_decide (Q2Qc 0 <= age)%Qc && bool_decide (age < Q2Qc 30)%Qc then Some "Under 30"
  else if bool_decide (Q2Qc 30 <= age)%Qc && bool_decide (age < Q2Qc 40)%Qc then Some "30-40"
  else if bool_decide (Q2Qc 40 <= age)%Qc && bool_decide (age < Q2Qc 50)%Qc then Some "40-50"
  else if bool_decide (Q2Qc 50 <= age)%Qc && bool_decide (age <= Q2Qc 100)%Qc then Some "50+"
  else None.

(** Running a stage on a processor: the processor it leaves behind and
    whether it raised. *)
Definition run {A} (m : M A) (st : Processor) : Processor := (m st).1.

Definition outcome {A} (m : M A) (st : Processor) : result A := (m st).2.

(** A processor right after loading [raw]. *)
Definition loaded (raw : DataFrame) : Processor :=
  run (load_data raw) (new_processor "in.csv" "out.csv").

(** ** Example inputs *)

Definition rec_of (l : list (string * value)) : record := list_to_map l.

Definition num (n : Z) : value := VNum (Q2Qc (inject_Z n)).

(** A frame with one column of numbers. *)
Definition frame_of (c : string) (l : list Z) : DataFrame :=
  mkDataFrame [c] ((fun n => rec_of [(c, num n)]) <$> l).


(** Two equal incomes: the three quartiles coincide. *)
Definition tied_incomes_frame : DataFrame :=
  frame_of "MonthlyIncome" [5000; 5000]%Z.

(** Ages on and around the bin edges. *)
Definition ages_frame : DataFrame :=
  frame_of "Age" [-1; 0; 29; 30; 40; 50; 100; 101]%Z.

(** An income column with a missing cell and no JobRole column. *)
Definition no_jobrole_frame : DataFrame :=
  mkDataFrame ["MonthlyIncome"]
    [rec_of [("MonthlyIncome", num 5000)]; rec_of []].

(** A JobSatisfaction column whose cells are all missing. *)
Definition no_satisfaction_frame : DataFrame :=
  mkDataFrame ["JobRole"; "JobSatisfaction"]
    [rec_of [("JobRole", VStr "Manager")]; rec_of [("JobRole", VStr "Analyst")]].

(** Two job roles, one of them without any income. *)
Definition missing_group_frame : DataFrame :=
  mkDataFrame ["JobRole"; "MonthlyIncome"]
    [rec_of [("JobRole", VStr "Manager"); ("MonthlyIncome", num 5000)];
     rec_of [("JobRole", VStr "Analyst")];
     rec_of [("JobRole", VStr "Manager")];
     rec_of [("JobRole", VStr "Manager"); ("MonthlyIncome", num 7000)];
     rec_of [("JobRole", VStr "Analyst")]].

Definition employee (age : Z) (department gender role : string)
    (satisfaction income : Z) : record :=
  rec_of [("Age", num age); ("Department", VStr department);
          ("Gender", VStr gender); ("JobRole", VStr role);
          ("JobSatisfaction", num satisfaction); ("MonthlyIncome", num income)].

(** A raw file without duplicate rows: the first two rows differ only in
    the spelling of the department. *)
Definition raw_frame : DataFrame :=
  mkDataFrame
    ["Age"; "Department"; "Gender"; "JobRole"; "JobSatisfaction"; "MonthlyIncome"]
    [employee 35 "SALES" "M" "Manager" 3 5000;
     employee 35 "Sales" "M" "Manager" 3 5000;
     employee 41 "Human Resources" "F" "Analyst" 4 3000;
     employee 52 "Engineering" "f" "Analyst" 2 7000].

(** A frame with complete incomes and some missing satisfaction. *)
Definition complete_income_frame : DataFrame :=
  mkDataFrame ["JobRole"; "JobSatisfaction"; "MonthlyIncome"]
    [rec_of [("JobRole", VStr "Manager"); ("JobSatisfaction", num 3);
             ("MonthlyIncome", num 5000)];
     rec_of [("JobRole", VStr "Analyst"); ("MonthlyIncome", num 3000)];
     rec_of [("JobSatisfaction", num 3); ("MonthlyIncome", num 4000)]].


(** What [pd.cut] does with the age bins: each bin is closed on the right
    and open on the left. *)
Definition age_group_right_closed (age : Qc) : option string :=
  if bool_decide (age <= Q2Qc 0)%Qc then None
  else if bool_decide (age <= Q2Qc 30)%Qc then Some "Under 30"
  else if bool_decide (age <= Q2Qc 40)%Qc then Some "30-40"
  else if bool_decide (age <= Q2Qc 50)%Qc then Some "40-50"
  else if bool_decide (age <= Q2Qc 100)%Qc then Some "50+"
  else None.

(** The cells of a column as strings, for reading results. *)
Definition labels_of (cells : list (option value)) : list (option string) :=
  (fun o : option value =>
     match o with
     | Some (VStr s) => Some s
     | _ => None
     end) <$> cells.

(** ** Further definitions for the properties of the stages *)

(** A series without strings: every present cell is a number. *)
Definition is_numeric (cells : list (option value)) : Prop :=
  Forall (fun o : option value => forall s, o <> Some (VStr s)) cells.

(** The numbers of a series, a cell that is no number read as missing. *)
Definition numbers_of (cells : list (option value)) : list (option Qc) :=
  (fun o : option value =>
     match o with
     | Some (VNum q) => Some q
     | _ => None
     end) <$> cells.

(** The income a row ends up with in the income block of Impute: none
    without a job role, its own if it has one, else the median of the
    incomes of the rows with the same job role. *)
Definition imputed_income (rs : list record) (r : record) : option value :=
  match r !! "JobRole" with
  | None => None
  | Some k =>
      match r !! "MonthlyIncome" with
      | Some v => Some v
      | None =>
          VNum <$> median (numbers_of (group "JobRole" "MonthlyIncome" rs k))
      end
  end.

(** How often a value occurs among the present cells of a series. *)
Definition occurrences (v : value) (cells : list (option value)) : nat :=
  length (filter (fun w => w = v) (dropna cells)).

(** What every stage keeps of the processor: the paths and the recorded
    shape stay, the columns and the log are only extended. *)
Definition extends (st st' : Processor) : Prop :=
  input_path st' = input_path st
  ∧ output_path st' = output_path st
  ∧ original_shape st' = original_shape st
  ∧ columns (df st) `prefix_of` columns (df st')
  ∧ (∀ c, c ∈ columns (df st') →
       c ∈ columns (df st) ∨ c = "AgeGroup" ∨ c = "IncomeCategory")
  ∧ processing_log st `prefix_of` processing_log st'.

(** A stage that keeps the above and the number of rows, whether it
    returns or raises. *)
Definition keeps_rows (m : M unit) : Prop :=
  ∀ st, extends st (run m st)
        ∧ length (rows (df (run m st))) = length (rows (df st)).




(** An income column in which one cell is text. *)
Definition text_income_frame : DataFrame :=
  mkDataFrame ["Department"; "MonthlyIncome"]
    [rec_of [("Department", VStr "SALES"); ("MonthlyIncome", VStr "unknown")];
     rec_of [("Department", VStr "Sales"); ("MonthlyIncome", num 5000)]].

(** A header without rows. *)
Definition header_only_frame : DataFrame :=
  mkDataFrame ["Age"; "Department"; "MonthlyIncome"] [].

(** Every job role has an income, one manager has none. *)
Definition fillable_frame : DataFrame :=
  mkDataFrame ["JobRole"; "MonthlyIncome"]
    [rec_of [("JobRole", VStr "Manager"); ("MonthlyIncome", num 5000)];
     rec_of [("JobRole", VStr "Manager")];
     rec_of [("JobRole", VStr "Analyst"); ("MonthlyIncome", num 3000)]].


(** Satisfaction 4 and 2 occur twice each, one cell is missing. *)
Definition tied_satisfaction_frame : DataFrame :=
  mkDataFrame ["JobSatisfaction"]
    [rec_of [("JobSatisfaction", num 4)]; rec_of [("JobSatisfaction", num 2)];
     rec_of []; rec_of [("JobSatisfaction", num 4)];
     rec_of [("JobSatisfaction", num 2)]].




(** Incomes -5000, 3000 and a missing one. *)
Definition negative_income_frame : DataFrame :=
  mkDataFrame ["MonthlyIncome"]
    [rec_of [("MonthlyIncome", num (-5000))];
     rec_of [("MonthlyIncome", num 3000)];
     rec_of []].

(** The least 64-bit integer, at which numpy's integer [abs] wraps
    around and returns its argument. *)
Definition int64_min : Qc := Q2Qc (inject_Z (- 2 ^ 63)).

(** [abs] as numpy computes it: on an integer column ([int64]) the least
    64-bit integer is returned as it is, every other number gets its
    absolute value; on a floating-point column only the sign is dropped. *)
Definition numpy_abs (int64 : bool) (q : Qc) : Qc :=
  if int64 && bool_decide (q = int64_min) then q else Qcabs q.

(** The satisfaction block under either pandas.  Before pandas 3 the
    chained [self.df[col].fillna(..., inplace=True)] writes through to the
    frame, which is what [fill_missing_satisfaction] takes; with
    copy-on-write (pandas 3) it fills a temporary series and the frame
    keeps its cells, while the log entry is appended all the same. *)
Definition fill_missing_satisfaction_under (copy_on_write : bool) : M unit :=
  do d <- get_df;
  when (bool_decide ("JobSatisfaction" ∈ columns d))
    (let missing_satisfaction := count_missing "JobSatisfaction" (rows d) in
     when (bool_decide (0 < missing_satisfaction))
       (do mode_satisfaction <- lift
          (getitem0 (mode (column "JobSatisfaction" (rows d))));
        do _ <- when (negb copy_on_write)
          (set_df
             (set_column "JobSatisfaction"
                (fillna (Some mode_satisfaction)
                   (column "JobSatisfaction" (rows d))) d));
        log_append (LogFilledSatisfaction missing_satisfaction mode_satisfaction))).

(** ** Proof automation *)

(** Close a decidable closed goal by evaluating its decision procedure. *)
Ltac decide_goal :=
  match goal with
  | |- ?P => refine (bool_decide_eq_true_1 P _); vm_compute; reflexivity
  end.

(** Case split on a comparison and rewrite its boolean. *)
Ltac split_lt b x :=
  destruct (decide (b < x)%Qc);
  [rewrite (bool_decide_eq_true_2 (b < x)%Qc) by done
  |rewrite (bool_decide_eq_false_2 (b < x)%Qc) by done].

(** Finish a case of the bin lookup by linear arithmetic on the
    rationals. *)
Ltac order_Qc :=
  repeat (rewrite decide_True by done);
  repeat (rewrite decide_False by done);
  simpl length;
  repeat case_bool_decide; simpl; try lia; try reflexivity;
  unfold Qclt, Qcle in *; exfalso; lra.

(** * Properties *)

(** ** Deduplicate *)

Section Dedup.

Implicit Types (seen rs : list record) (r : record).

Lemma drop_from_cons seen r rs :
  boolean_index (r :: rs) (negb <$> duplicated_from seen (r :: rs)) =
  if bool_decide (r ∈ seen)
  then boolean_index rs (negb <$> duplicated_from (r :: seen) rs)
  else r :: boolean_index rs (negb <$> duplicated_from (r :: seen) rs).
Proof. simpl. by destruct (bool_decide (r ∈ seen)). Qed.

Lemma drop_from_elem seen rs r :
  r ∈ boolean_index rs (negb <$> duplicated_from seen rs) ↔ r ∈ rs ∧ r ∉ seen.
Proof.
  revert seen. induction rs as [|x rs IH]; intros seen.
  - simpl. rewrite !elem_of_nil. tauto.
  - rewrite drop_from_cons. case_bool_decide as Hx.
    + rewrite IH, !elem_of_cons. naive_solver.
    + rewrite !elem_of_cons, IH, elem_of_cons.
      destruct (decide (r = x)); naive_solver.
Qed.

Lemma drop_from_NoDup seen rs :
  NoDup (boolean_index rs (negb <$> duplicated_from seen rs)).
Proof.
  revert seen. induction rs as [|x rs IH]; intros seen.
  - simpl. constructor.
  - rewrite drop_from_cons. case_bool_decide as Hx; [apply IH|].
    constructor; [|apply IH].
    rewrite drop_from_elem, elem_of_cons. naive_solver.
Qed.

Lemma drop_from_fixed seen rs :
  NoDup rs → (∀ r, r ∈ rs → r ∉ seen) →
  boolean_index rs (negb <$> duplicated_from seen rs) = rs.
Proof.
  revert seen. induction rs as [|x rs IH]; intros seen Hnd Hseen; [done|].
  rewrite drop_from_cons. apply NoDup_cons in Hnd as [Hx Hnd].
  rewrite bool_decide_eq_false_2 by (apply Hseen; left).
  f_equal. apply IH; [done|].
  intros r Hr. rewrite elem_of_cons. intros [->|Hs]; [done|].
  apply (Hseen r); [by right|done].
Qed.

Lemma drop_from_sublist seen rs :
  boolean_index rs (negb <$> duplicated_from seen rs) `sublist_of` rs.
Proof.
  revert seen. induction rs as [|x rs IH]; intros seen; [done|].
  rewrite drop_from_cons. case_bool_decide.
  - by apply sublist_cons.
  - by apply sublist_skip.
Qed.

Lemma drop_from_length seen rs :
  length (boolean_index rs (negb <$> duplicated_from seen rs)) +
  sum_bool (duplicated_from seen rs) = length rs.
Proof.
  revert seen. induction rs as [|x rs IH]; intros seen; [done|].
  rewrite drop_from_cons. unfold sum_bool in *. simpl.
  specialize (IH (x :: seen)).
  case_bool_decide.
  - rewrite filter_cons_True by done. simpl. lia.
  - rewrite filter_cons_False by done. simpl. lia.
Qed.

Lemma duplicated_from_take seen rs :
  duplicated_from seen rs =
  imap (fun i r => bool_decide (r ∈ seen ++ take i rs)) rs.
Proof.
  revert seen. induction rs as [|x rs IH]; intros seen; [done|].
  simpl. f_equal.
  - apply bool_decide_ext. rewrite app_nil_r. done.
  - rewrite IH. apply imap_ext. intros i r _. simpl.
    apply bool_decide_ext.
    rewrite elem_of_cons, !elem_of_app, elem_of_cons. tauto.
Qed.

Lemma drop_from_first pre seen rs :
  (∀ r, r ∈ seen ↔ r ∈ pre) →
  boolean_index rs (negb <$> duplicated_from seen rs) =
  (filter (fun p : nat * record => p.2 ∉ take p.1 (pre ++ rs))
     (imap (fun i => pair (length pre + i)) rs)).*2.
Proof.
  revert pre seen. induction rs as [|x rs IH]; intros pre seen Hseen; [done|].
  rewrite drop_from_cons. simpl imap. rewrite filter_cons. simpl.
  rewrite Nat.add_0_r, take_app_length.
  rewrite (IH (pre ++ [x]) (x :: seen)).
  2:{ intros r. rewrite elem_of_cons, elem_of_app, list_elem_of_singleton, Hseen. tauto. }
  rewrite <- (assoc_L (++) pre [x] rs). simpl.
  rewrite (imap_ext (fun i => pair (length (pre ++ [x]) + i))
             ((fun i => pair (length pre + i)) ∘ S) rs).
  2:{ intros i r _. simpl. rewrite length_app. simpl. f_equal. lia. }
  case_bool_decide as Hx; case_decide as Hy; try done.
  - apply Hseen in Hx. done.
  - exfalso. apply Hx. by apply Hseen.
Qed.

End Dedup.

(** C6. Running the Deduplicate stage twice leaves the frame of the first
    run: the second run removes zero rows and logs that; a run never
    raises and never adds rows. *)
Theorem remove_duplicates_idempotent (st : Processor) :
  drop_duplicates (drop_duplicates (rows (df st))) = drop_duplicates (rows (df st))
  ∧ df (run remove_duplicates (run remove_duplicates st)) =
    df (run remove_duplicates st)
  ∧ processing_log (run remove_duplicates (run remove_duplicates st)) =
    processing_log (run remove_duplicates st) ++ [LogRemovedDuplicates 0]
  ∧ length (rows (df (run remove_duplicates st))) ≤ length (rows (df st))
  ∧ outcome remove_duplicates st = Ok tt.
Proof.
  assert (Hidem : drop_duplicates (drop_duplicates (rows (df st))) =
                  drop_duplicates (rows (df st))).
  { unfold drop_duplicates, duplicated. apply drop_from_fixed.
    - apply drop_from_NoDup.
    - intros r _. apply not_elem_of_nil. }
  split; [exact Hidem|].
  unfold run, outcome, remove_duplicates, bind, get_df, set_df, log_append.
  simpl. rewrite Hidem. repeat split.
  - by rewrite Nat.sub_diag.
  - pose proof (drop_from_length [] (rows (df st))) as Hlen.
    unfold drop_duplicates, duplicated. lia.
Qed.

(** C9. The Deduplicate stage keeps exactly the rows that equal no earlier
    row: its output is the list of first occurrences in the original
    order, a duplicate-free sublist of the input with the same distinct
    rows, and the mask of removed rows flags a row exactly when an equal
    row precedes it. *)
Theorem remove_duplicates_first_occurrences (st : Processor) :
  rows (df (run remove_duplicates st)) = first_occurrences (rows (df st))
  ∧ columns (df (run remove_duplicates st)) = columns (df st)
  ∧ rows (df (run remove_duplicates st)) `sublist_of` rows (df st)
  ∧ NoDup (rows (df (run remove_duplicates st)))
  ∧ (∀ r, r ∈ rows (df (run remove_duplicates st)) ↔ r ∈ rows (df st))
  ∧ duplicated (rows (df st)) =
    imap (fun i r => bool_decide (r ∈ take i (rows (df st)))) (rows (df st))
  ∧ processing_log (run remove_duplicates st) =
    processing_log st ++
      [LogRemovedDuplicates (sum_bool (duplicated (rows (df st))))].
Proof.
  unfold run, remove_duplicates, bind, get_df, set_df, log_append. simpl.
  unfold drop_duplicates, duplicated.
  repeat split.
  - rewrite (drop_from_first [] []) by done. done.
  - apply drop_from_sublist.
  - apply drop_from_NoDup.
  - rewrite drop_from_elem. tauto.
  - rewrite drop_from_elem. intros Hr. split; [done|apply not_elem_of_nil].
  - by rewrite duplicated_from_take.
  - do 3 f_equal.
    pose proof (drop_from_length [] (rows (df st))). lia.
Qed.

(** ** Assess *)

Lemma for_each_log_append {A} (g : A -> log_entry) (l : list A) (st : Processor) :
  for_each l (fun x => log_append (g x)) st =
  (mkProcessor (input_path st) (output_path st) (df st) (original_shape st)
     (processing_log st ++ (g <$> l)), Ok tt).
Proof.
  revert st. induction l as [|x l IH]; intros st; simpl.
  - unfold ret. rewrite app_nil_r. by destruct st.
  - unfold bind, log_append at 1. rewrite IH. simpl.
    by rewrite <- (assoc_L (++)).
Qed.

(** C10. The Assess stage never touches the frame: after it the frame,
    the paths and the recorded shape are what they were, it does not
    raise, and the log is the old log followed by the duplicate count
    and, when some column has missing cells, a header and one entry per
    such column with its count. *)
Theorem data_quality_assessment_pure (st : Processor) :
  df (run data_quality_assessment st) = df st
  ∧ input_path (run data_quality_assessment st) = input_path st
  ∧ output_path (run data_quality_assessment st) = output_path st
  ∧ original_shape (run data_quality_assessment st) = original_shape st
  ∧ outcome data_quality_assessment st = Ok tt
  ∧ processing_log (run data_quality_assessment st) =
    processing_log st ++
      LogFoundDuplicates (sum_bool (duplicated (rows (df st)))) ::
      let missing_cols :=
        filter (fun p : string * nat => 0 < p.2)
          ((fun c => (c, count_missing c (rows (df st)))) <$> columns (df st)) in
      match missing_cols with
      | [] => []
      | _ => LogMissingFound ::
             ((fun p => LogMissingColumn p.1 p.2 (length (rows (df st))))
                <$> missing_cols)
      end.
Proof.
  unfold run, outcome, data_quality_assessment, bind, get_df. simpl.
  set (mc := filter _ _).
  destruct mc as [|p mc'] eqn:Hmc; simpl.
  - done.
  - pose proof (fun s => for_each_log_append
      (fun p => LogMissingColumn p.1 p.2 (length (rows (df st)))) (p :: mc') s)
      as Hlog.
    simpl in Hlog. rewrite Hlog. simpl. repeat split; try done.
    rewrite <- !(assoc_L (++)). done.
Qed.

(** ** Columns and the monad *)

Lemma run_bind {A B} (m : M A) (k : A -> M B) (st : Processor) :
  run (bind m k) st =
  match outcome m st with
  | Ok a => run (k a) (run m st)
  | Raise _ => run m st
  end.
Proof. unfold run, outcome, bind. by destruct (m st) as [st' [a|e]]. Qed.

Lemma outcome_bind {A B} (m : M A) (k : A -> M B) (st : Processor) :
  outcome (bind m k) st =
  match outcome m st with
  | Ok a => outcome (k a) (run m st)
  | Raise e => Raise e
  end.
Proof. unfold run, outcome, bind. by destruct (m st) as [st' [a|e]]. Qed.

Lemma length_column c rs : length (column c rs) = length rs.
Proof. unfold column. by rewrite length_fmap. Qed.

Lemma lookup_set_cell c c' r v :
  set_cell c r v !! c' = if decide (c = c') then v else r !! c'.
Proof.
  unfold set_cell. destruct v as [x|].
  - by rewrite lookup_insert.
  - rewrite lookup_delete. by case_decide.
Qed.

Lemma column_set_column_eq c cells d :
  length cells = length (rows d) →
  column c (rows (set_column c cells d)) = cells.
Proof.
  unfold column, set_column; simpl. generalize (rows d) as rs.
  induction cells as [|v cells IH]; intros [|r rs] Hlen; simplify_eq/=; [done|].
  rewrite lookup_set_cell, decide_True by done. f_equal. by apply IH.
Qed.

Lemma column_set_column_ne c c' cells d :
  c ≠ c' →
  length cells = length (rows d) →
  column c' (rows (set_column c cells d)) = column c' (rows d).
Proof.
  intros Hne. unfold column, set_column; simpl. generalize (rows d) as rs.
  induction cells as [|v cells IH]; intros [|r rs] Hlen; simplify_eq/=; [done|].
  rewrite lookup_set_cell, decide_False by done. f_equal. by apply IH.
Qed.

Lemma length_rows_set_column c cells d :
  length cells = length (rows d) →
  length (rows (set_column c cells d)) = length (rows d).
Proof.
  intros Hlen. unfold set_column; simpl. rewrite length_zip_with. lia.
Qed.

Lemma columns_set_column_present c cells d :
  c ∈ columns d → columns (set_column c cells d) = columns d.
Proof. intros Hc. unfold set_column; simpl. by rewrite bool_decide_eq_true_2. Qed.

Lemma length_replace mapping cells : length (replace mapping cells) = length cells.
Proof. unfold replace. by rewrite length_fmap. Qed.

Lemma length_result_mapM {A B} (f : A -> result B) (l : list A) (k : list B) :
  result_mapM f l = Ok k → length k = length l.
Proof.
  revert k. induction l as [|x l IH]; intros k; simpl.
  - by intros [= <-].
  - destruct (f x) as [y|e]; simpl; [|done].
    destruct (result_mapM f l) as [ys|e]; simpl; [|done].
    intros [= <-]. simpl. f_equal. by apply IH.
Qed.

(** ** Standardize *)

Lemma replace_dept_spec (s : string) :
  replace_value dept_mapping (VStr s) =
  if bool_decide (s ∈ ["SALES"; "sales"]) then VStr "Sales"
  else if bool_decide (s ∈ ["RESEARCH & DEVELOPMENT"; "research & development"])
  then VStr "Research & Development"
  else if bool_decide (s ∈ ["HUMAN RESOURCES"; "human resources"])
  then VStr "Human Resources"
  else VStr s.
Proof.
  unfold replace_value, dept_mapping. simpl list_to_map.
  rewrite !lookup_insert, lookup_empty.
  repeat (case_decide; [subst s; reflexivity|]).
  rewrite !bool_decide_eq_false_2; [done|..];
    rewrite ?elem_of_cons, elem_of_nil; naive_solver.
Qed.

Lemma replace_gender_spec (s : string) :
  replace_value gender_mapping (VStr s) =
  if bool_decide (s ∈ ["M"; "m"]) then VStr "Male"
  else if bool_decide (s ∈ ["F"; "f"]) then VStr "Female"
  else VStr s.
Proof.
  unfold replace_value, gender_mapping. simpl list_to_map.
  rewrite !lookup_insert, lookup_empty.
  repeat (case_decide; [subst s; reflexivity|]).
  rewrite !bool_decide_eq_false_2; [done|..];
    rewrite ?elem_of_cons, elem_of_nil; naive_solver.
Qed.

(** What one replace block does to the frame, for either mapping. *)
Lemma replace_block_spec (c : string) (mapping : gmap string string)
    (e : log_entry) (st : Processor) :
  let block :=
    (do d <- get_df;
     when (bool_decide (c ∈ columns d))
       (do _ <- set_df (set_column c (replace mapping (column c (rows d))) d);
        log_append e)) in
  outcome block st = Ok tt
  ∧ columns (df (run block st)) = columns (df st)
  ∧ length (rows (df (run block st))) = length (rows (df st))
  ∧ column c (rows (df (run block st))) =
    (if bool_decide (c ∈ columns (df st))
     then replace mapping (column c (rows (df st)))
     else column c (rows (df st)))
  ∧ ∀ c', c ≠ c' →
      column c' (rows (df (run block st))) = column c' (rows (df st)).
Proof.
  intros block. unfold block, run, outcome, bind, get_df, when. simpl.
  case_bool_decide as Hc; simpl; [|done].
  assert (Hlen : length (replace mapping (column c (rows (df st)))) =
                 length (rows (df st)))
    by (by rewrite length_replace, length_column).
  set (cells := replace mapping (column c (rows (df st)))) in *.
  split_and!; [done|..].
  - exact (columns_set_column_present c cells (df st) Hc).
  - exact (length_rows_set_column c cells (df st) Hlen).
  - exact (column_set_column_eq c cells (df st) Hlen).
  - intros c' Hne. exact (column_set_column_ne c c' cells (df st) Hne Hlen).
Qed.

Lemma fix_negative_income_frame (st : Processor) :
  columns (df (run fix_negative_income st)) = columns (df st)
  ∧ length (rows (df (run fix_negative_income st))) = length (rows (df st))
  ∧ ∀ c', "MonthlyIncome" ≠ c' →
      column c' (rows (df (run fix_negative_income st))) =
      column c' (rows (df st)).
Proof.
  unfold fix_negative_income, run, bind, get_df, when, lift. simpl.
  case_bool_decide as Hc; simpl; [|done].
  destruct (to_numeric _) as [nums|err] eqn:Hnum; simpl; [|done].
  case_bool_decide as Hneg; simpl; [|done].
  assert (Hlen : length (of_numeric ((fun o : option Qc => Qcabs <$> o) <$> nums)) =
                 length (rows (df st))).
  { unfold of_numeric. rewrite !length_fmap.
    apply length_result_mapM in Hnum. by rewrite Hnum, length_column. }
  set (cells := of_numeric _) in *.
  split_and!.
  - exact (columns_set_column_present "MonthlyIncome" cells (df st) Hc).
  - exact (length_rows_set_column "MonthlyIncome" cells (df st) Hlen).
  - intros c' Hne.
    exact (column_set_column_ne "MonthlyIncome" c' cells (df st) Hne Hlen).
Qed.


(** ** Impute *)

(** Equal numbers can carry different canonicity proofs; equality of
    cells is therefore decided rather than read off. *)
Lemma cells_eq_decide (a b : list (option value)) :
  bool_decide (a = b) = true → a = b.
Proof. apply bool_decide_eq_true_1. Qed.

Lemma length_fillna {A} (v : option A) (cells : list (option A)) :
  length (fillna v cells) = length cells.
Proof. unfold fillna. by rewrite length_fmap. Qed.

Lemma fill_missing_income_noop (st : Processor) :
  count_missing "MonthlyIncome" (rows (df st)) = 0 →
  fill_missing_income st = (st, Ok tt).
Proof.
  intros Hnone. unfold fill_missing_income, bind, get_df, when. simpl.
  rewrite Hnone. simpl. by case_bool_decide.
Qed.

Lemma fill_missing_satisfaction_frame (st : Processor) :
  ∀ c', "JobSatisfaction" ≠ c' →
    column c' (rows (df (run fill_missing_satisfaction st))) =
    column c' (rows (df st)).
Proof.
  intros c' Hne.
  unfold fill_missing_satisfaction, run, bind, get_df, when, lift. simpl.
  case_bool_decide as Hc; simpl; [|done].
  case_bool_decide as Hmiss; simpl; [|done].
  destruct (getitem0 _) as [m|err]; simpl; [|done].
  set (cells := fillna _ _).
  apply (column_set_column_ne "JobSatisfaction" c' cells (df st) Hne).
  unfold cells. by rewrite length_fillna, length_column.
Qed.

(** C8. When no income cell is missing, the Impute stage leaves the
    income column as it was (whether or not the stage goes on to fill or
    to fail on another column), and its income block changes nothing at
    all. *)
Theorem handle_missing_values_income_noop (st : Processor) :
  count_missing "MonthlyIncome" (rows (df st)) = 0 →
  column "MonthlyIncome" (rows (df (run handle_missing_values st))) =
    column "MonthlyIncome" (rows (df st))
  ∧ run fill_missing_income st = st
  ∧ outcome fill_missing_income st = Ok tt.
Proof.
  intros Hnone.
  pose proof (fill_missing_income_noop st Hnone) as Hnoop.
  split_and!.
  - unfold handle_missing_values. rewrite run_bind.
    unfold outcome, run at 2 3. rewrite Hnoop. simpl.
    by apply fill_missing_satisfaction_frame.
  - unfold run. by rewrite Hnoop.
  - unfold outcome. by rewrite Hnoop.
Qed.

Lemma handle_missing_values_income_noop_witness :
  count_missing "MonthlyIncome" (rows (df (loaded complete_income_frame))) = 0
  ∧ column "MonthlyIncome"
      (rows (df (run handle_missing_values (loaded complete_income_frame)))) =
    column "MonthlyIncome" (rows (df (loaded complete_income_frame))).
Proof.
  split; [reflexivity|].
  apply (handle_missing_values_income_noop (loaded complete_income_frame)).
  reflexivity.
Defined.

Lemma fill_missing_income_no_jobrole (st : Processor) :
  "MonthlyIncome" ∈ columns (df st) →
  "JobRole" ∉ columns (df st) →
  0 < count_missing "MonthlyIncome" (rows (df st)) →
  handle_missing_values st = (st, Raise (KeyError "JobRole")).
Proof.
  intros Hinc Hrole Hmiss.
  unfold handle_missing_values, fill_missing_income, bind, get_df, when, lift,
    groupby.
  simpl.
  rewrite (bool_decide_eq_true_2 _ Hinc), (bool_decide_eq_true_2 _ Hmiss).
  by rewrite (bool_decide_eq_false_2 _ Hrole).
Qed.

(** C2. On a frame that has a MonthlyIncome column with a missing cell
    and no JobRole column, the Impute stage raises [KeyError: 'JobRole']
    and leaves the frame and the log as they were. *)
Theorem handle_missing_values_no_jobrole_raises :
  "MonthlyIncome" ∈ columns no_jobrole_frame
  ∧ ("JobRole" ∉ columns no_jobrole_frame)
  ∧ count_missing "MonthlyIncome" (rows no_jobrole_frame) = 1
  ∧ outcome handle_missing_values (loaded no_jobrole_frame) =
    Raise (KeyError "JobRole")
  ∧ run handle_missing_values (loaded no_jobrole_frame) = loaded no_jobrole_frame.
Proof.
  assert (Hraise : handle_missing_values (loaded no_jobrole_frame) =
                   (loaded no_jobrole_frame, Raise (KeyError "JobRole"))).
  { apply fill_missing_income_no_jobrole.
    - apply list_elem_of_singleton. reflexivity.
    - intros Hin. apply list_elem_of_singleton in Hin. discriminate.
    - vm_compute. lia. }
  split_and!.
  - apply list_elem_of_singleton. reflexivity.
  - intros Hin. apply list_elem_of_singleton in Hin. discriminate.
  - reflexivity.
  - unfold outcome. by rewrite Hraise.
  - unfold run. by rewrite Hraise.
Qed.

Lemma mode_all_missing (cells : list (option value)) :
  Forall (fun o => o = None) cells → mode cells = [].
Proof.
  intros Hall. unfold mode.
  assert (Hdrop : dropna cells = []).
  { unfold dropna. induction Hall as [|o cells -> _ IH]; [done|by simpl]. }
  rewrite Hdrop. reflexivity.
Qed.

Lemma fill_missing_satisfaction_all_missing (st : Processor) :
  "JobSatisfaction" ∈ columns (df st) →
  rows (df st) ≠ [] →
  Forall (fun o => o = None) (column "JobSatisfaction" (rows (df st))) →
  fill_missing_satisfaction st = (st, Raise (KeyError "0")).
Proof.
  intros Hcol Hrows Hall.
  unfold fill_missing_satisfaction, bind, get_df, when, lift. simpl.
  rewrite (bool_decide_eq_true_2 _ Hcol).
  rewrite mode_all_missing by done. simpl.
  case_bool_decide as Hmiss; [done|].
  exfalso. apply Hmiss. unfold count_missing, sum_bool, isnull.
  destruct (rows (df st)) as [|r rs]; [done|].
  simpl in *. apply Forall_cons in Hall as [-> _].
  rewrite filter_cons_True by done. simpl. lia.
Qed.

(** In a group whose incomes are all missing the median is undefined and
    the lambda of the income block returns the group unchanged. *)
Lemma fill_with_median_all_missing (x : list (option value)) :
  Forall (fun o => o = None) x → fill_with_median x = Ok x.
Proof.
  intros Hall. unfold fill_with_median.
  assert (Hnum : to_numeric x = Ok ((fun _ => None) <$> x)).
  { unfold to_numeric. induction Hall as [|o x -> _ IH]; [done|].
    simpl. by rewrite IH. }
  rewrite Hnum. simpl.
  assert (Hmed : median ((fun _ : option value => @None Qc) <$> x) = None).
  { unfold median.
    assert (Hdrop : dropna ((fun _ : option value => @None Qc) <$> x) = []).
    { unfold dropna. clear. induction x; [done|by simpl]. }
    by rewrite Hdrop. }
  rewrite Hmed. simpl. f_equal. unfold fillna. clear Hnum Hmed.
  induction Hall as [|o x -> _ IH]; [done|]. simpl. by f_equal.
Qed.

(** C3. On a frame whose JobSatisfaction cells are all missing the Impute
    stage raises: the mode is empty and taking its first element is a
    [KeyError]; the frame is left as it was.  The income block alone does
    what the policy asks: on a frame where one job role has no income at
    all it does not raise, and the rows of that role keep their income
    missing. *)
Theorem handle_missing_values_all_missing_mode_raises :
  outcome handle_missing_values (loaded no_satisfaction_frame) =
    Raise (KeyError "0")
  ∧ df (run handle_missing_values (loaded no_satisfaction_frame)) =
    no_satisfaction_frame
  ∧ mode (column "JobSatisfaction" (rows no_satisfaction_frame)) = []
  ∧ outcome handle_missing_values (loaded missing_group_frame) = Ok tt
  ∧ column "MonthlyIncome"
      (rows (df (run handle_missing_values (loaded missing_group_frame)))) =
    [Some (num 5000); None; Some (num 6000); Some (num 7000); None].
Proof.
  split_and!.
  - reflexivity.
  - reflexivity.
  - reflexivity.
  - vm_compute. reflexivity.
  - apply cells_eq_decide. vm_compute. reflexivity.
Qed.

(** ** Derive *)

(** [pd.cut] on five increasing edges: a value lands in the bin whose
    right edge is the first edge not below it. *)
Lemma cut_cell_five (b0 b1 b2 b3 : Qc) (top : edge) (l1 l2 l3 l4 : string)
    (x : Qc) :
  (b0 < b1)%Qc → (b1 < b2)%Qc → (b2 < b3)%Qc →
  edge_lt (Finite b3) top = true →
  cut_cell [Finite b0; Finite b1; Finite b2; Finite b3; top] [l1; l2; l3; l4]
    (Some x) =
  if bool_decide (x <= b0)%Qc then None
  else if bool_decide (x <= b1)%Qc then Some (VStr l1)
  else if bool_decide (x <= b2)%Qc then Some (VStr l2)
  else if bool_decide (x <= b3)%Qc then Some (VStr l3)
  else if edge_lt top (Finite x) then None
  else Some (VStr l4).
Proof.
  intros H01 H12 H23 Htop.
  unfold cut_cell, searchsorted_left.
  rewrite !filter_cons, filter_nil. simpl edge_lt.
  destruct top as [b4| |]; simpl in Htop |- *; [| |done].
  - apply bool_decide_eq_true_1 in Htop.
    split_lt b0 x; split_lt b1 x; split_lt b2 x; split_lt b3 x; split_lt b4 x;
      order_Qc.
  - split_lt b0 x; split_lt b1 x; split_lt b2 x; split_lt b3 x;
      cbn; order_Qc.
Qed.


Lemma age_bins_increasing :
  (Q2Qc 0 < Q2Qc 30)%Qc ∧ (Q2Qc 30 < Q2Qc 40)%Qc ∧ (Q2Qc 40 < Q2Qc 50)%Qc
  ∧ edge_lt (Finite (Q2Qc 50)) (Finite (Q2Qc 100)) = true.
Proof. split_and!; reflexivity. Qed.

(** The age bins of the code are closed on the right. *)
Lemma cut_age_right_closed (age : Qc) :
  cut_cell age_bins age_labels (Some age) = VStr <$> age_group_right_closed age.
Proof.
  destruct age_bins_increasing as (H0 & H1 & H2 & H3).
  unfold age_bins, age_labels. rewrite cut_cell_five by done.
  unfold age_group_right_closed. simpl edge_lt.
  repeat case_bool_decide; try reflexivity;
    unfold Qclt, Qcle in *; exfalso; lra.
Qed.






(** The hypothesis on the quartiles is needed: when they coincide
    [pd.cut] rejects the bins and the stage raises. *)
Lemma create_derived_features_tied_quartiles_raise :
  outcome create_derived_features (loaded tied_incomes_frame) =
    Raise (ValueError "Bin edges must be unique")
  ∧ df (run create_derived_features (loaded tied_incomes_frame)) =
    tied_incomes_frame.
Proof. split; vm_compute; reflexivity. Qed.

(** C1. The age bins of the code are closed on the right, not on the
    left: on the ages -1, 0, 29, 30, 40, 50, 100, 101 the Derive stage
    leaves -1, 0 and 101 without a group and puts 30 in "Under 30", 40 in
    "30-40" and 50 in "40-50", where the bins as described put 0 in
    "Under 30", 30 in "30-40", 40 in "40-50" and 50 in "50+". *)
Theorem create_derived_features_age_group_edges :
  outcome create_derived_features (loaded ages_frame) = Ok tt
  ∧ labels_of (column "AgeGroup"
       (rows (df (run create_derived_features (loaded ages_frame))))) =
    [None; None; Some "Under 30"; Some "Under 30"; Some "30-40";
     Some "40-50"; Some "50+"; None]
  ∧ age_group_described <$>
      (Q2Qc <$> [-1; 0; 29; 30; 40; 50; 100; 101]%Q) =
    [None; Some "Under 30"; Some "Under 30"; Some "30-40"; Some "40-50";
     Some "50+"; Some "50+"; None]
  ∧ (∀ age, cut_cell age_bins age_labels (Some age) =
            VStr <$> age_group_right_closed age).
Proof.
  split_and!.
  - vm_compute. reflexivity.
  - vm_compute. reflexivity.
  - vm_compute. reflexivity.
  - apply cut_age_right_closed.
Qed.

(** ** The whole pipeline *)

(** C4. The cleaned frame can hold duplicate rows.  The raw frame below
    has no two equal rows (its first two rows differ in the spelling of
    the department only), the pipeline runs to the end on it and removes
    nothing in the Deduplicate stage, and in the frame it saves the first
    two rows are equal, so that the "No duplicates" check of the
    verification script reports false. *)
Theorem main_output_has_duplicates :
  NoDup (rows raw_frame)
  ∧ (main raw_frame).2 = Ok tt
  ∧ processing_log (main raw_frame).1 !! 2 = Some (LogRemovedDuplicates 0)
  ∧ length (rows (df (main raw_frame).1)) = 4
  ∧ rows (df (main raw_frame).1) !! 0 = rows (df (main raw_frame).1) !! 1
  ∧ sum_bool (duplicated (rows (df (main raw_frame).1))) = 1
  ∧ (quick_verification (df (main raw_frame).1)).1.2 = false.
Proof.
  split_and!.
  - decide_goal.
  - vm_compute. reflexivity.
  - vm_compute. reflexivity.
  - vm_compute. reflexivity.
  - decide_goal.
  - vm_compute. reflexivity.
  - vm_compute. reflexivity.
Qed.

(** * Further properties of the stages *)

(** ** Duplicates: Assess, Deduplicate and the verification script *)

Lemma sum_bool_cons (b : bool) (mask : list bool) :
  sum_bool (b :: mask) = (if b then 1 else 0) + sum_bool mask.
Proof.
  unfold sum_bool. destruct b.
  - by rewrite filter_cons_True.
  - by rewrite filter_cons_False.
Qed.

Lemma duplicated_from_none (seen rs : list record) :
  sum_bool (duplicated_from seen rs) = 0 ↔ NoDup rs ∧ ∀ r, r ∈ rs → r ∉ seen.
Proof.
  revert seen. induction rs as [|x rs IH]; intros seen.
  - simpl. split; [|done]. intros _. split; [constructor|].
    intros r Hr. by apply elem_of_nil in Hr.
  - simpl duplicated_from. rewrite sum_bool_cons, NoDup_cons.
    case_bool_decide as Hx.
    + split; [lia|]. intros [_ Hseen]. exfalso. apply (Hseen x); [left|done].
    + simpl. rewrite IH. split.
      * intros [Hnd Hseen]. split_and!; [|done|].
        -- intros Hin. apply (Hseen x Hin). left.
        -- intros r. rewrite elem_of_cons. intros [->|Hr]; [done|].
           intros Hs. apply (Hseen r Hr). by right.
      * intros [[Hxrs Hnd] Hseen]. split; [done|].
        intros r Hr. rewrite elem_of_cons. intros [->|Hs]; [done|].
        apply (Hseen r); [by right|done].
Qed.

(** X1. The "No duplicates" line of the verification script is true
    exactly for the frames without two equal rows; it is true for every
    frame the Deduplicate stage has just produced. *)
Theorem quick_verification_no_duplicates (d : DataFrame) (st : Processor) :
  ((quick_verification d).1.2 = true ↔ NoDup (rows d))
  ∧ (quick_verification (df (run remove_duplicates st))).1.2 = true.
Proof.
  assert (Hiff : ∀ d', (quick_verification d').1.2 = true ↔ NoDup (rows d')).
  { intros d'. unfold quick_verification. simpl.
    rewrite bool_decide_eq_true. unfold duplicated.
    rewrite duplicated_from_none. split; [tauto|].
    intros Hnd. split; [done|]. intros r _. apply not_elem_of_nil. }
  split; [apply Hiff|].
  apply Hiff.
  unfold run, remove_duplicates, bind, get_df, set_df, log_append. simpl.
  unfold drop_duplicates, duplicated. apply drop_from_NoDup.
Qed.

Lemma data_quality_assessment_log (st : Processor) :
  ∃ entries,
    run data_quality_assessment st =
    mkProcessor (input_path st) (output_path st) (df st) (original_shape st)
      (processing_log st ++
         LogFoundDuplicates (sum_bool (duplicated (rows (df st)))) :: entries).
Proof.
  unfold run, data_quality_assessment, bind, get_df. simpl.
  set (mc := filter _ _).
  destruct mc as [|p mc'] eqn:Hmc; simpl.
  - exists []. done.
  - pose proof (fun s => for_each_log_append
      (fun p => LogMissingColumn p.1 p.2 (length (rows (df st)))) (p :: mc') s)
      as Hlog.
    simpl in Hlog. rewrite Hlog. simpl.
    eexists. rewrite <- !(assoc_L (++)). simpl. reflexivity.
Qed.

(** X2. The number of duplicates the Assess stage reports is the number
    of rows the Deduplicate stage then removes: Assess logs it first,
    Deduplicate logs the same number last, and the frame shrinks by it. *)
Theorem assess_count_is_removed_count (st : Processor) :
  let n := sum_bool (duplicated (rows (df st))) in
  processing_log (run data_quality_assessment st) !! length (processing_log st) =
    Some (LogFoundDuplicates n)
  ∧ last (processing_log
            (run remove_duplicates (run data_quality_assessment st))) =
    Some (LogRemovedDuplicates n)
  ∧ length (rows (df (run remove_duplicates (run data_quality_assessment st)))) + n =
    length (rows (df st)).
Proof.
  intros n.
  destruct (data_quality_assessment_log st) as (entries & Hrun).
  assert (Hdf : df (run data_quality_assessment st) = df st)
    by (by rewrite Hrun).
  assert (Hlog : processing_log (run data_quality_assessment st) =
                 processing_log st ++ LogFoundDuplicates n :: entries)
    by (by rewrite Hrun).
  pose proof (drop_from_length [] (rows (df st))) as Hlen.
  fold (duplicated (rows (df st))) in Hlen. fold n in Hlen.
  split_and!.
  - rewrite Hlog. rewrite lookup_app_r by lia. by rewrite Nat.sub_diag.
  - unfold run at 1, remove_duplicates, bind, get_df, set_df, log_append. simpl.
    rewrite last_snoc, Hdf. do 2 f_equal.
    unfold drop_duplicates, duplicated in *. clearbody n. lia.
  - unfold run at 1, remove_duplicates, bind, get_df, set_df, log_append. simpl.
    rewrite Hdf. exact Hlen.
Qed.

(** ** What every stage keeps *)

Lemma extends_refl (st : Processor) : extends st st.
Proof. unfold extends. split_and!; try done. intros c Hc. by left. Qed.

Lemma extends_trans (st1 st2 st3 : Processor) :
  extends st1 st2 → extends st2 st3 → extends st1 st3.
Proof.
  intros (Hi & Ho & Hs & Hc & Hn & Hl) (Hi' & Ho' & Hs' & Hc' & Hn' & Hl').
  unfold extends. split_and!; try congruence; try (by etrans).
  intros c Hin. destruct (Hn' c Hin) as [Hin2|Hnew]; [|by right].
  apply (Hn c Hin2).
Qed.

Lemma columns_set_column_prefix c cells d :
  columns d `prefix_of` columns (set_column c cells d).
Proof.
  unfold set_column. simpl. case_bool_decide; [done|]. by apply prefix_app_r.
Qed.

Lemma columns_set_column_elem c cells d c' :
  c' ∈ columns (set_column c cells d) → c' ∈ columns d ∨ c' = c.
Proof.
  unfold set_column. simpl. case_bool_decide; [by left|].
  rewrite elem_of_app, list_elem_of_singleton. tauto.
Qed.

Lemma set_column_extends c cells e (st : Processor) :
  c ∈ columns (df st) ∨ c = "AgeGroup" ∨ c = "IncomeCategory" →
  extends st
    (mkProcessor (input_path st) (output_path st) (set_column c cells (df st))
       (original_shape st) (processing_log st ++ [e])).
Proof.
  intros Hc. unfold extends. simpl. split_and!; try done.
  - exact (columns_set_column_prefix c cells (df st)).
  - intros c' Hin.
    destruct (columns_set_column_elem c cells (df st) c' Hin) as [?| ->]; [by left|].
    exact Hc.
  - by apply prefix_app_r.
Qed.

Lemma keeps_rows_refl (st : Processor) :
  extends st st ∧ length (rows (df st)) = length (rows (df st)).
Proof. split; [apply extends_refl|done]. Qed.

Lemma keeps_rows_bind (m k : M unit) :
  keeps_rows m → keeps_rows k → keeps_rows (do _ <- m; k).
Proof.
  intros Hm Hk st. rewrite run_bind.
  destruct (Hm st) as [Hext Hlen].
  destruct (outcome m st) as [[]|err]; [|done].
  destruct (Hk (run m st)) as [Hext' Hlen'].
  split; [by eapply extends_trans|congruence].
Qed.

Lemma length_scatter key outs seen rs :
  length (scatter key outs seen rs) = length rs.
Proof.
  revert seen. induction rs as [|r rs IH]; intros seen; [done|].
  simpl. by rewrite IH.
Qed.

Lemma length_groupby_transform key col f rs cells :
  groupby_transform key col f rs = Ok cells → length cells = length rs.
Proof.
  unfold groupby_transform. destruct (result_mapM _ _) as [outs|e]; simpl; [|done].
  intros [= <-]. apply length_scatter.
Qed.

Lemma length_to_numeric cells nums :
  to_numeric cells = Ok nums → length nums = length cells.
Proof. apply length_result_mapM. Qed.

Lemma length_cut x bins labels cells :
  cut x bins labels = Ok cells → length cells = length x.
Proof.
  unfold cut. repeat case_match; try done. intros [= <-]. by rewrite length_fmap.
Qed.

Lemma fill_missing_income_keeps : keeps_rows fill_missing_income.
Proof.
  intros st.
  unfold fill_missing_income, run, bind, get_df, when, lift, groupby, set_df,
    log_append.
  simpl. case_bool_decide as Hc; simpl; [|apply keeps_rows_refl].
  case_bool_decide; simpl; [|apply keeps_rows_refl].
  case_bool_decide; simpl; [|apply keeps_rows_refl].
  destruct (groupby_transform _ _ _ _) as [filled|err] eqn:Hfill; simpl;
    [|apply keeps_rows_refl].
  split; [apply set_column_extends; by left|].
  apply length_groupby_transform in Hfill.
  exact (length_rows_set_column "MonthlyIncome" filled (df st) Hfill).
Qed.

Lemma fill_missing_satisfaction_keeps : keeps_rows fill_missing_satisfaction.
Proof.
  intros st.
  unfold fill_missing_satisfaction, run, bind, get_df, when, lift, set_df,
    log_append.
  simpl. case_bool_decide; simpl; [|apply keeps_rows_refl].
  case_bool_decide; simpl; [|apply keeps_rows_refl].
  destruct (getitem0 _) as [m|err]; simpl; [|apply keeps_rows_refl].
  split; [apply set_column_extends; by left|].
  set (cells := fillna _ _).
  apply (length_rows_set_column "JobSatisfaction" cells (df st)).
  unfold cells. by rewrite length_fillna, length_column.
Qed.

Lemma replace_block_keeps c mapping e :
  keeps_rows
    (do d <- get_df;
     when (bool_decide (c ∈ columns d))
       (do _ <- set_df (set_column c (replace mapping (column c (rows d))) d);
        log_append e)).
Proof.
  intros st.
  unfold run, bind, get_df, when, set_df, log_append.
  simpl. case_bool_decide; simpl; [|apply keeps_rows_refl].
  split; [apply set_column_extends; by left|].
  set (cells := replace _ _).
  apply (length_rows_set_column c cells (df st)).
  unfold cells. by rewrite length_replace, length_column.
Qed.

Lemma fix_negative_income_keeps : keeps_rows fix_negative_income.
Proof.
  intros st.
  unfold fix_negative_income, run, bind, get_df, when, lift, set_df, log_append.
  simpl. case_bool_decide; simpl; [|apply keeps_rows_refl].
  destruct (to_numeric _) as [nums|err] eqn:Hnum; simpl; [|apply keeps_rows_refl].
  case_bool_decide; simpl; [|apply keeps_rows_refl].
  split; [apply set_column_extends; by left|].
  set (cells := of_numeric _).
  apply (length_rows_set_column "MonthlyIncome" cells (df st)).
  unfold cells, of_numeric. rewrite !length_fmap.
  apply length_to_numeric in Hnum. by rewrite Hnum, length_column.
Qed.

Lemma create_age_group_keeps : keeps_rows create_age_group.
Proof.
  intros st.
  unfold create_age_group, run, bind, get_df, when, lift, set_df, log_append.
  simpl. case_bool_decide; simpl; [|apply keeps_rows_refl].
  destruct (to_numeric _) as [nums|err] eqn:Hnum; simpl; [|apply keeps_rows_refl].
  split; [apply set_column_extends; right; by left|].
  set (cells := _ <$> nums).
  apply (length_rows_set_column "AgeGroup" cells (df st)).
  unfold cells. rewrite length_fmap.
  apply length_to_numeric in Hnum. by rewrite Hnum, length_column.
Qed.

Lemma create_income_category_keeps : keeps_rows create_income_category.
Proof.
  intros st.
  unfold create_income_category, run, bind, get_df, when, lift, set_df,
    log_append.
  simpl. case_bool_decide; simpl; [|apply keeps_rows_refl].
  destruct (to_numeric _) as [nums|err] eqn:Hnum; simpl; [|apply keeps_rows_refl].
  destruct (cut nums (income_bins nums) income_labels) as [cells|err] eqn:Hcut;
    simpl; [|apply keeps_rows_refl].
  split; [apply set_column_extends; right; by right|].
  apply (length_rows_set_column "IncomeCategory" cells (df st)).
  apply length_cut in Hcut. apply length_to_numeric in Hnum.
  by rewrite Hcut, Hnum, length_column.
Qed.

Lemma handle_missing_values_keeps : keeps_rows handle_missing_values.
Proof.
  apply keeps_rows_bind;
    [apply fill_missing_income_keeps|apply fill_missing_satisfaction_keeps].
Qed.

Lemma standardize_data_keeps : keeps_rows standardize_data.
Proof.
  apply keeps_rows_bind; [apply replace_block_keeps|].
  apply keeps_rows_bind; [apply replace_block_keeps|].
  apply fix_negative_income_keeps.
Qed.

Lemma create_derived_features_keeps : keeps_rows create_derived_features.
Proof.
  apply keeps_rows_bind;
    [apply create_age_group_keeps|apply create_income_category_keeps].
Qed.

Lemma save_processed_data_keeps : keeps_rows save_processed_data.
Proof.
  intros st. unfold save_processed_data, run, log_append. simpl.
  split; [|done]. unfold extends. simpl. split_and!; try done.
  - intros c Hc. by left.
  - by apply prefix_app_r.
Qed.

Lemma generate_processing_report_keeps : keeps_rows generate_processing_report.
Proof.
  intros st. unfold generate_processing_report, run.
  case_bool_decide; simpl; apply keeps_rows_refl.
Qed.

Lemma data_quality_assessment_ok (st : Processor) :
  outcome data_quality_assessment st = Ok tt.
Proof.
  unfold outcome, data_quality_assessment, bind, get_df. simpl.
  set (mc := filter _ _).
  destruct mc as [|p mc'] eqn:Hmc; simpl; [done|].
  pose proof (fun s => for_each_log_append
    (fun p => LogMissingColumn p.1 p.2 (length (rows (df st)))) (p :: mc') s)
    as Hlog.
  simpl in Hlog. by rewrite Hlog.
Qed.

Lemma bind_ok {A B} (m : M A) (k : A -> M B) (st : Processor) (a : A) :
  outcome m st = Ok a → bind m k st = k a (run m st).
Proof.
  unfold outcome, run, bind. destruct (m st) as [st' [a'|e]]; simpl; [|done].
  by intros [= ->].
Qed.

(** The stages after Deduplicate, as [main] chains them. *)
Lemma main_after_deduplicate (raw : DataFrame) :
  main raw =
  (do _ <- handle_missing_values;
   do _ <- standardize_data;
   do _ <- create_derived_features;
   do _ <- save_processed_data;
   generate_processing_report)
    (run remove_duplicates
       (run data_quality_assessment
          (run (load_data raw)
             (new_processor "data/raw/hr_data_raw.csv"
                "data/processed/hr_data_clean.csv")))).
Proof.
  unfold main.
  rewrite (bind_ok (load_data raw) _ _ tt) by done.
  rewrite (bind_ok data_quality_assessment _ _ tt)
    by apply data_quality_assessment_ok.
  rewrite (bind_ok remove_duplicates _ _ tt) by done.
  done.
Qed.

Lemma after_deduplicate_keeps :
  keeps_rows
    (do _ <- handle_missing_values;
     do _ <- standardize_data;
     do _ <- create_derived_features;
     do _ <- save_processed_data;
     generate_processing_report).
Proof.
  apply keeps_rows_bind; [apply handle_missing_values_keeps|].
  apply keeps_rows_bind; [apply standardize_data_keeps|].
  apply keeps_rows_bind; [apply create_derived_features_keeps|].
  apply keeps_rows_bind; [apply save_processed_data_keeps|].
  apply generate_processing_report_keeps.
Qed.

(** X3. Whatever the raw frame and whether the run completes or raises,
    the frame the pipeline is left with has exactly the rows count of the
    deduplicated raw frame (no later stage adds or drops a row), its
    columns are the raw columns, in order, followed at most by AgeGroup
    and IncomeCategory, the recorded original shape is the shape of the
    raw frame, and the log starts with the load entry and the duplicate
    count. *)
Theorem main_rows_and_columns (raw : DataFrame) :
  length (rows (df (main raw).1)) = length (drop_duplicates (rows raw))
  ∧ length (rows (df (main raw).1)) ≤ length (rows raw)
  ∧ columns raw `prefix_of` columns (df (main raw).1)
  ∧ (∀ c, c ∈ columns (df (main raw).1) →
       c ∈ columns raw ∨ c = "AgeGroup" ∨ c = "IncomeCategory")
  ∧ original_shape (main raw).1 = (length (rows raw), length (columns raw))
  ∧ [LogLoaded (length (rows raw)) (length (columns raw));
     LogFoundDuplicates (sum_bool (duplicated (rows raw)))]
      `prefix_of` processing_log (main raw).1.
Proof.
  rewrite main_after_deduplicate.
  set (st0 := new_processor _ _).
  set (st1 := run (load_data raw) st0).
  set (st2 := run data_quality_assessment st1).
  set (st3 := run remove_duplicates st2).
  destruct (data_quality_assessment_log st1) as (entries & Hrun).
  fold st2 in Hrun.
  assert (Hst3 : st3 =
    mkProcessor (input_path st1) (output_path st1)
      (mkDataFrame (columns raw) (drop_duplicates (rows raw)))
      (length (rows raw), length (columns raw))
      ((LogLoaded (length (rows raw)) (length (columns raw)) ::
        LogFoundDuplicates (sum_bool (duplicated (rows raw))) :: entries) ++
       [LogRemovedDuplicates
          (length (rows raw) - length (drop_duplicates (rows raw)))])).
  { unfold st3, run, remove_duplicates, bind, get_df, set_df, log_append.
    rewrite Hrun. reflexivity. }
  clearbody st3.
  destruct (after_deduplicate_keeps st3) as [(Hi & Ho & Hs & Hc & Hn & Hl) Hlen].
  subst st3.
  unfold run in Hi, Ho, Hs, Hc, Hn, Hl, Hlen. simpl in *.
  split_and!; try done.
  - rewrite Hlen. unfold drop_duplicates, duplicated.
    pose proof (drop_from_length [] (rows raw)). lia.
  - etrans; [|exact Hl]. by apply prefix_cons, prefix_cons, prefix_nil.
Qed.

(** ** Impute: what the two blocks write *)

Lemma to_numeric_numbers_of (x : list (option value)) :
  is_numeric x → to_numeric x = Ok (numbers_of x).
Proof.
  unfold is_numeric, to_numeric, numbers_of.
  induction 1 as [|o x Ho _ IH]; [done|].
  simpl. rewrite IH. destruct o as [[q|s]|]; simpl; try done.
  by destruct (Ho s).
Qed.

Lemma is_numeric_group key col rs k :
  is_numeric (column col rs) → is_numeric (group key col rs k).
Proof.
  unfold is_numeric, group, column. rewrite !Forall_fmap, !Forall_forall.
  intros Hall r Hr. apply Hall. by apply list_elem_of_filter in Hr as [_ Hr].
Qed.

Lemma result_mapM_ok {A B} (f : A -> result B) (g : A -> B) (l : list A) :
  Forall (fun x => f x = Ok (g x)) l → result_mapM f l = Ok (g <$> l).
Proof.
  induction 1 as [|x l Hx _ IH]; [done|]. simpl. by rewrite Hx, IH.
Qed.

Lemma assoc_fmap {A} (out : value -> A) (k : value) (l : list value) :
  k ∈ l → assoc k ((fun k' => (k', out k')) <$> l) = Some (out k).
Proof.
  induction l as [|k' l IH]; intros Hin; [by apply elem_of_nil in Hin|].
  simpl. case_bool_decide as Hk; [by subst|].
  apply IH. apply elem_of_cons in Hin as [->|]; done.
Qed.

Lemma scatter_imap key outs seen rs :
  scatter key outs seen rs =
  imap (fun j r =>
          match r !! key with
          | None => None
          | Some k =>
              match assoc k outs with
              | None => None
              | Some out =>
                  mjoin (out !! length (filter (in_group key k) (seen ++ take j rs)))
              end
          end) rs.
Proof.
  revert seen. induction rs as [|x rs IH]; intros seen; [done|].
  simpl. rewrite app_nil_r. f_equal. rewrite IH. apply imap_ext.
  intros j r _. simpl. by rewrite <- (assoc_L (++)).
Qed.

Lemma filter_lookup_rank {A} (P : A -> Prop) `{!∀ x, Decision (P x)}
    (l : list A) (j : nat) (x : A) :
  l !! j = Some x → P x →
  filter P l !! length (filter P (take j l)) = Some x.
Proof.
  intros Hj HP.
  replace (filter P l) with (filter P (take j l ++ x :: drop (S j) l))
    by (by rewrite take_drop_middle).
  rewrite filter_app, filter_cons_True by done.
  rewrite lookup_app_r by lia. by rewrite Nat.sub_diag.
Qed.

Lemma group_keys_elem key rs r k :
  r ∈ rs → r !! key = Some k → k ∈ group_keys key rs.
Proof.
  intros Hr Hk. unfold group_keys, dropna, column.
  apply elem_of_remove_dups, list_elem_of_omap.
  exists (Some k). split; [|done]. apply list_elem_of_fmap. by exists r.
Qed.

(** The income block on a numeric income column. *)
Lemma groupby_transform_fill_with_median (rs : list record) :
  is_numeric (column "MonthlyIncome" rs) →
  groupby_transform "JobRole" "MonthlyIncome" fill_with_median rs =
  Ok (imputed_income rs <$> rs).
Proof.
  intros Hnum. unfold groupby_transform.
  set (out := fun k =>
    fillna (VNum <$> median (numbers_of (group "JobRole" "MonthlyIncome" rs k)))
      (group "JobRole" "MonthlyIncome" rs k)).
  rewrite (result_mapM_ok _ (fun k => (k, out k))).
  2:{ apply Forall_forall. intros k _. unfold fill_with_median.
      rewrite to_numeric_numbers_of by by apply is_numeric_group. done. }
  simpl. f_equal. rewrite scatter_imap.
  rewrite <- (imap_const (imputed_income rs) rs).
  apply imap_ext. intros j r Hj. simpl. unfold imputed_income.
  destruct (r !! "JobRole") as [k|] eqn:Hk; [|done].
  rewrite assoc_fmap
    by (eapply group_keys_elem; [by eapply list_elem_of_lookup_2|done]).
  unfold out, fillna, group, column. rewrite !list_lookup_fmap.
  rewrite (filter_lookup_rank _ rs j r Hj) by done. simpl.
  by destruct (r !! "MonthlyIncome").
Qed.

Lemma mode_head (cells : list (option value)) (v : value) :
  Some v ∈ cells →
  ∃ m rest, mode cells = m :: rest
    ∧ Some m ∈ cells
    ∧ ∀ w, occurrences w cells ≤ occurrences m cells.
Proof.
  intros Hv. unfold mode, occurrences.
  set (present := dropna cells).
  assert (Hpres : ∀ w, w ∈ present ↔ Some w ∈ cells).
  { intros w. unfold present, dropna. rewrite list_elem_of_omap. split.
    - by intros ([x|] & Hx & [= <-]).
    - intros Hw. by exists (Some w). }
  set (counts := value_counts present).
  set (best := max_list counts.*2).
  assert (Hcounts : ∀ w n, (w, n) ∈ counts ↔
            w ∈ present ∧ n = length (filter (fun w' => w' = w) present)).
  { intros w n. unfold counts, value_counts. rewrite list_elem_of_fmap.
    split.
    - intros (w' & Heq & Hin). injection Heq as Hw Hn. subst w' n.
      rewrite elem_of_remove_dups in Hin. by split.
    - intros [Hin ->]. exists w. by rewrite elem_of_remove_dups. }
  assert (Hbest : best ∈ counts.*2).
  { apply max_list_elem_of. intros Hnil. apply fmap_nil_inv in Hnil.
    assert (Hin : (v, length (filter (fun w' => w' = v) present)) ∈ counts)
      by (apply Hcounts; split; [by apply Hpres|done]).
    rewrite Hnil in Hin. by apply elem_of_nil in Hin. }
  apply list_elem_of_fmap in Hbest as ([w0 n0] & Hn0 & Hw0). simpl in Hn0.
  set (tied := (filter (fun p : value * nat => p.2 = best) counts).*1).
  assert (Htied : w0 ∈ merge_sort value_le tied).
  { rewrite merge_sort_Permutation. unfold tied. apply list_elem_of_fmap.
    exists (w0, n0). split; [done|]. apply list_elem_of_filter. by split. }
  destruct (merge_sort value_le tied) as [|m rest] eqn:Hsort;
    [by apply elem_of_nil in Htied|].
  exists m, rest. split; [done|].
  assert (Hm : m ∈ tied).
  { rewrite <- (merge_sort_Permutation value_le tied), Hsort. left. }
  unfold tied in Hm. apply list_elem_of_fmap in Hm as ([m' n] & -> & Hm).
  apply list_elem_of_filter in Hm as [Hn Hm]. simpl in Hn |- *.
  apply Hcounts in Hm as [Hin ->]. split; [by apply Hpres|].
  intros w. rewrite Hn.
  destruct (decide (w ∈ present)) as [Hw|Hw].
  - apply max_list_elem_of_le. apply list_elem_of_fmap.
    exists (w, length (filter (fun w' => w' = w) present)).
    split; [done|]. by apply Hcounts.
  - destruct (filter (fun w' => w' = w) present) as [|y ys] eqn:Hf;
      [simpl; lia|].
    assert (Hy : y ∈ filter (fun w' => w' = w) present) by (rewrite Hf; left).
    apply list_elem_of_filter in Hy as [-> Hy]. done.
Qed.

Lemma count_missing_fillna (c : string) (m : value) (d : DataFrame) :
  count_missing c
    (rows (set_column c (fillna (Some m) (column c (rows d))) d)) = 0.
Proof.
  unfold count_missing, isnull.
  rewrite column_set_column_eq by (by rewrite length_fillna, length_column).
  unfold fillna, sum_bool. induction (column c (rows d)) as [|o l IH]; [done|].
  simpl. rewrite filter_cons_False; [exact IH|].
  destruct o; by rewrite bool_decide_eq_false_2.
Qed.

Lemma fillna_no_missing {A} (v : option A) (cells : list (option A)) :
  None ∉ cells → fillna v cells = cells.
Proof.
  unfold fillna. induction cells as [|o l IH]; intros Hno; [done|].
  apply not_elem_of_cons in Hno as [Ho Hl]. simpl.
  f_equal; [by destruct o|by apply IH].
Qed.

Lemma count_missing_zero (c : string) (rs : list record) :
  count_missing c rs = 0 ↔ None ∉ column c rs.
Proof.
  unfold count_missing, isnull, sum_bool.
  induction (column c rs) as [|o l IH]; simpl.
  - split; [intros _; apply not_elem_of_nil|done].
  - rewrite not_elem_of_cons. destruct o as [x|].
    + rewrite filter_cons_False by (by rewrite bool_decide_eq_false_2).
      rewrite IH. split; [by intros ?; split|tauto].
    + rewrite filter_cons_True by (by rewrite bool_decide_eq_true_2).
      simpl. split; [lia|]. by intros [? _].
Qed.

(** ** Standardize: negative incomes *)

Lemma of_numeric_numbers_of (x : list (option value)) :
  is_numeric x → of_numeric (numbers_of x) = x.
Proof.
  unfold is_numeric, of_numeric, numbers_of.
  induction 1 as [|o x Ho _ IH]; [done|].
  simpl. f_equal; [|exact IH].
  destruct o as [[q|s]|]; simpl; try done. by destruct (Ho s).
Qed.

Lemma numbers_of_of_numeric (nums : list (option Qc)) :
  numbers_of (of_numeric nums) = nums.
Proof.
  unfold numbers_of, of_numeric. induction nums as [|o l IH]; [done|].
  simpl. f_equal; [by destruct o|exact IH].
Qed.

Lemma is_numeric_of_numeric (nums : list (option Qc)) :
  is_numeric (of_numeric nums).
Proof.
  unfold is_numeric, of_numeric. apply Forall_fmap, Forall_forall.
  intros [q|] _ s; done.
Qed.

Lemma count_negative_abs (nums : list (option Qc)) :
  count_negative ((fun o : option Qc => Qcabs <$> o) <$> nums) = 0.
Proof.
  unfold count_negative. induction nums as [|o l IH]; [done|].
  rewrite !fmap_cons, sum_bool_cons, IH. destruct o as [q|]; simpl; [|done].
  rewrite bool_decide_eq_false_2; [done|].
  apply Qcle_not_lt, Qcabs_nonneg.
Qed.

Lemma abs_no_negative (nums : list (option Qc)) :
  count_negative nums = 0 →
  (fun o : option Qc => Qcabs <$> o) <$> nums = nums.
Proof.
  unfold count_negative. induction nums as [|o l IH]; [done|].
  rewrite !fmap_cons, sum_bool_cons. intros Hsum.
  rewrite IH by lia. f_equal. destruct o as [q|]; simpl in *; [|done].
  case_bool_decide as Hq; [lia|].
  f_equal. apply Qcabs_pos. by apply Qcnot_lt_le.
Qed.

(** Under the bound, numpy's [abs] is the absolute value for either
    kind of column. *)
Lemma numpy_abs_above_min (int64 : bool) (q : Qc) :
  (int64_min < q)%Qc → numpy_abs int64 q = Qcabs q.
Proof.
  intros Hq. unfold numpy_abs. destruct int64; [|done]. simpl.
  case_bool_decide as Heq; [|done].
  subst q. by apply Qclt_not_eq in Hq.
Qed.

Lemma numpy_abs_series (int64 : bool) (nums : list (option Qc)) :
  (∀ q, Some q ∈ nums → (int64_min < q)%Qc) →
  (fun o : option Qc => numpy_abs int64 <$> o) <$> nums =
  (fun o : option Qc => Qcabs <$> o) <$> nums.
Proof.
  intros Hmin. apply list_fmap_ext. intros i [q|] Hi; simpl; [|done].
  f_equal. apply numpy_abs_above_min, Hmin. by eapply list_elem_of_lookup_2.
Qed.

(** X6. On a frame whose MonthlyIncome column is numeric and holds no
    income as low as the least 64-bit integer, the income block of
    Standardize succeeds and replaces every income by its absolute value
    (missing cells stay missing), whether the column is an integer or a
    floating-point one, so that no negative income is left; it changes no
    other column, and it logs exactly when some income was negative.
    (At the least 64-bit integer the [abs] of an integer column wraps
    around and returns its argument, hence the bound.) *)
Theorem fix_negative_income_abs (st : Processor) :
  "MonthlyIncome" ∈ columns (df st) →
  is_numeric (column "MonthlyIncome" (rows (df st))) →
  (∀ q, Some q ∈ numbers_of (column "MonthlyIncome" (rows (df st))) →
        (int64_min < q)%Qc) →
  outcome fix_negative_income st = Ok tt
  ∧ (∀ int64 : bool,
       column "MonthlyIncome" (rows (df (run fix_negative_income st))) =
       of_numeric ((fun o : option Qc => numpy_abs int64 <$> o) <$>
                     numbers_of (column "MonthlyIncome" (rows (df st)))))
  ∧ count_negative
      (numbers_of
         (column "MonthlyIncome" (rows (df (run fix_negative_income st))))) = 0
  ∧ (∀ c, "MonthlyIncome" ≠ c →
       column c (rows (df (run fix_negative_income st))) =
       column c (rows (df st)))
  ∧ processing_log (run fix_negative_income st) =
    processing_log st ++
      (let n := count_negative
                  (numbers_of (column "MonthlyIncome" (rows (df st)))) in
       if bool_decide (0 < n) then [LogFixedNegative n] else []).
Proof.
  intros Hcol Hnum Hmin.
  assert (Hcolumn :
    column "MonthlyIncome" (rows (df (run fix_negative_income st))) =
    of_numeric ((fun o : option Qc => Qcabs <$> o) <$>
                  numbers_of (column "MonthlyIncome" (rows (df st))))).
  { unfold fix_negative_income, run, bind, get_df, when, lift, set_df,
      log_append.
    simpl. rewrite (bool_decide_eq_true_2 _ Hcol).
    rewrite to_numeric_numbers_of by done. simpl.
    case_bool_decide as Hneg; simpl.
    - set (cells := of_numeric _).
      apply (column_set_column_eq "MonthlyIncome" cells (df st)).
      unfold cells, of_numeric, numbers_of.
      by rewrite !length_fmap, length_column.
    - rewrite abs_no_negative by lia. by rewrite of_numeric_numbers_of. }
  split_and!.
  - unfold fix_negative_income, outcome, bind, get_df, when, lift, set_df,
      log_append.
    simpl. rewrite (bool_decide_eq_true_2 _ Hcol).
    rewrite to_numeric_numbers_of by done. simpl. by case_bool_decide.
  - intros int64. rewrite Hcolumn. f_equal. symmetry.
    by apply numpy_abs_series.
  - rewrite Hcolumn, numbers_of_of_numeric. apply count_negative_abs.
  - apply fix_negative_income_frame.
  - unfold fix_negative_income, run, bind, get_df, when, lift, set_df,
      log_append.
    simpl. rewrite (bool_decide_eq_true_2 _ Hcol).
    rewrite to_numeric_numbers_of by done. simpl.
    case_bool_decide; simpl; [done|by rewrite app_nil_r].
Qed.

Lemma fix_negative_income_abs_witness :
  is_numeric (column "MonthlyIncome" (rows (df (loaded negative_income_frame))))
  ∧ count_negative
      (numbers_of
         (column "MonthlyIncome" (rows (df (loaded negative_income_frame))))) = 1
  ∧ outcome fix_negative_income (loaded negative_income_frame) = Ok tt
  ∧ column "MonthlyIncome"
      (rows (df (run fix_negative_income (loaded negative_income_frame)))) =
    [Some (num 5000); Some (num 3000); None]
  ∧ processing_log (run fix_negative_income (loaded negative_income_frame)) =
    processing_log (loaded negative_income_frame) ++ [LogFixedNegative 1].
Proof.
  assert (Hnum : is_numeric
            (column "MonthlyIncome" (rows (df (loaded negative_income_frame))))).
  { repeat constructor; intros s; discriminate. }
  assert (Hmin : ∀ q,
            Some q ∈ numbers_of
                       (column "MonthlyIncome"
                          (rows (df (loaded negative_income_frame)))) →
            (int64_min < q)%Qc).
  { intros q Hq.
    change (Some q ∈ [Some (Q2Qc (inject_Z (-5000)));
                      Some (Q2Qc (inject_Z 3000)); None]) in Hq.
    rewrite !elem_of_cons, elem_of_nil in Hq.
    destruct Hq as [Hq|[Hq|[Hq|[]]]]; [| |discriminate Hq];
      injection Hq as ->; decide_goal. }
  destruct (fix_negative_income_abs (loaded negative_income_frame))
    as (Hok & Hcolumn & _ & _ & Hlog); [decide_goal|exact Hnum|exact Hmin|].
  split_and!; [exact Hnum|reflexivity|exact Hok| |rewrite Hlog; vm_compute; reflexivity].
  rewrite (Hcolumn false). apply cells_eq_decide. vm_compute. reflexivity.
Defined.

(** ** Standardize: running it again *)

Lemma replace_dept_idem (v : value) :
  replace_value dept_mapping (replace_value dept_mapping v) =
  replace_value dept_mapping v.
Proof.
  destruct v as [q|s]; [done|].
  rewrite (replace_dept_spec s).
  repeat (case_bool_decide; [reflexivity|]).
  rewrite replace_dept_spec. by rewrite !bool_decide_eq_false_2.
Qed.

Lemma replace_gender_idem (v : value) :
  replace_value gender_mapping (replace_value gender_mapping v) =
  replace_value gender_mapping v.
Proof.
  destruct v as [q|s]; [done|].
  rewrite (replace_gender_spec s).
  repeat (case_bool_decide; [reflexivity|]).
  rewrite replace_gender_spec. by rewrite !bool_decide_eq_false_2.
Qed.

Lemma replace_idem (mapping : gmap string string) (cells : list (option value)) :
  (∀ v, replace_value mapping (replace_value mapping v) =
        replace_value mapping v) →
  replace mapping (replace mapping cells) = replace mapping cells.
Proof.
  intros Hidem. unfold replace. rewrite <- list_fmap_compose.
  apply list_fmap_ext. intros _ [v|] _; simpl; [|done]. by rewrite Hidem.
Qed.

Lemma set_cell_same (c : string) (r : record) : set_cell c r (r !! c) = r.
Proof.
  unfold set_cell. destruct (r !! c) as [x|] eqn:Hc.
  - by apply insert_id.
  - by apply delete_id.
Qed.

Lemma set_column_same (c : string) (d : DataFrame) :
  c ∈ columns d → set_column c (column c (rows d)) d = d.
Proof.
  intros Hc. destruct d as [cols rs]. unfold set_column, column. simpl in *.
  rewrite bool_decide_eq_true_2 by done. f_equal.
  induction rs as [|r rs IH]; [done|]. simpl.
  f_equal; [apply set_cell_same|apply IH].
Qed.

Lemma replace_block_df c mapping e (st : Processor) :
  df (run (do d <- get_df;
           when (bool_decide (c ∈ columns d))
             (do _ <- set_df
                (set_column c (replace mapping (column c (rows d))) d);
              log_append e)) st) =
  if bool_decide (c ∈ columns (df st))
  then set_column c (replace mapping (column c (rows (df st)))) (df st)
  else df st.
Proof.
  unfold run, bind, get_df, when, set_df, log_append. simpl.
  by case_bool_decide.
Qed.

Lemma fix_negative_income_df (st : Processor) :
  df (run fix_negative_income st) =
  if bool_decide ("MonthlyIncome" ∈ columns (df st)) then
    match to_numeric (column "MonthlyIncome" (rows (df st))) with
    | Ok nums =>
        if bool_decide (0 < count_negative nums)
        then set_column "MonthlyIncome"
               (of_numeric ((fun o : option Qc => Qcabs <$> o) <$> nums)) (df st)
        else df st
    | Raise _ => df st
    end
  else df st.
Proof.
  unfold fix_negative_income, run, bind, get_df, when, lift, set_df, log_append.
  simpl. case_bool_decide; simpl; [|done].
  destruct (to_numeric _) as [nums|err]; simpl; [|done].
  by case_bool_decide.
Qed.

Lemma to_numeric_of_numeric (nums : list (option Qc)) :
  to_numeric (of_numeric nums) = Ok nums.
Proof.
  rewrite to_numeric_numbers_of by apply is_numeric_of_numeric.
  by rewrite numbers_of_of_numeric.
Qed.

(** A frame on which Standardize has nothing left to do. *)
Lemma standardize_data_settled (d : DataFrame) :
  ("Department" ∈ columns d →
     replace dept_mapping (column "Department" (rows d)) =
     column "Department" (rows d)) →
  ("Gender" ∈ columns d →
     replace gender_mapping (column "Gender" (rows d)) =
     column "Gender" (rows d)) →
  ("MonthlyIncome" ∈ columns d →
     ∀ nums, to_numeric (column "MonthlyIncome" (rows d)) = Ok nums →
             count_negative nums = 0) →
  ∀ st, df st = d → df (run standardize_data st) = d.
Proof.
  intros Hdept Hgender Hincome st Hdf. unfold standardize_data.
  assert (H1 : df (run standardize_department st) = d).
  { unfold standardize_department. rewrite replace_block_df, Hdf.
    case_bool_decide as Hc; [|done].
    rewrite Hdept by done. by apply set_column_same. }
  assert (H2 : df (run standardize_gender (run standardize_department st)) = d).
  { unfold standardize_gender at 1. rewrite replace_block_df, H1.
    case_bool_decide as Hc; [|done].
    rewrite Hgender by done. by apply set_column_same. }
  assert (H3 : df (run fix_negative_income
                     (run standardize_gender (run standardize_department st))) = d).
  { rewrite fix_negative_income_df, H2.
    case_bool_decide as Hc; [|done].
    destruct (to_numeric _) as [nums|err] eqn:Hnum; [|done].
    rewrite (Hincome Hc nums eq_refl). by rewrite bool_decide_eq_false_2 by lia. }
  rewrite run_bind.
  destruct (outcome standardize_department st) as [[]|err]; [|done].
  rewrite run_bind.
  destruct (outcome standardize_gender _) as [[]|err]; done.
Qed.

Lemma standardize_data_run (st : Processor) :
  run standardize_data st =
  run fix_negative_income (run standardize_gender (run standardize_department st)).
Proof.
  unfold standardize_data.
  destruct (replace_block_spec "Department" dept_mapping
              LogStandardizedDepartment st) as (Ho1 & _).
  destruct (replace_block_spec "Gender" gender_mapping
              LogStandardizedGender (run standardize_department st)) as (Ho2 & _).
  fold standardize_department in Ho1. fold standardize_gender in Ho2.
  by rewrite run_bind, Ho1, run_bind, Ho2.
Qed.

Lemma fix_negative_income_settled (st : Processor) (nums : list (option Qc)) :
  "MonthlyIncome" ∈ columns (df (run fix_negative_income st)) →
  to_numeric (column "MonthlyIncome" (rows (df (run fix_negative_income st)))) =
    Ok nums →
  count_negative nums = 0.
Proof.
  destruct (fix_negative_income_frame st) as (Hcols & _ & _).
  rewrite Hcols. intros Hc. rewrite fix_negative_income_df.
  rewrite (bool_decide_eq_true_2 _ Hc).
  destruct (to_numeric (column "MonthlyIncome" (rows (df st))))
    as [nums0|err] eqn:Hnum0.
  - case_bool_decide as Hneg.
    + set (cells := of_numeric _).
      rewrite (column_set_column_eq "MonthlyIncome" cells (df st)).
      2:{ unfold cells, of_numeric. rewrite !length_fmap.
          apply length_to_numeric in Hnum0. by rewrite Hnum0, length_column. }
      unfold cells. rewrite to_numeric_of_numeric. intros [= <-].
      apply count_negative_abs.
    + rewrite Hnum0. intros [= <-]. lia.
  - by rewrite Hnum0.
Qed.

Lemma standardize_data_columns_eq (st : Processor) :
  columns (df (run standardize_data st)) = columns (df st).
Proof.
  rewrite standardize_data_run.
  destruct (fix_negative_income_frame
              (run standardize_gender (run standardize_department st)))
    as (Hc3 & _).
  destruct (replace_block_spec "Gender" gender_mapping
              LogStandardizedGender (run standardize_department st))
    as (_ & Hc2 & _).
  destruct (replace_block_spec "Department" dept_mapping
              LogStandardizedDepartment st) as (_ & Hc1 & _).
  fold standardize_gender in Hc2. fold standardize_department in Hc1.
  by rewrite Hc3, Hc2, Hc1.
Qed.

Lemma standardize_data_department (st : Processor) :
  column "Department" (rows (df (run standardize_data st))) =
  if bool_decide ("Department" ∈ columns (df st))
  then replace dept_mapping (column "Department" (rows (df st)))
  else column "Department" (rows (df st)).
Proof.
  rewrite standardize_data_run.
  destruct (fix_negative_income_frame
              (run standardize_gender (run standardize_department st)))
    as (_ & _ & Hf3).
  destruct (replace_block_spec "Gender" gender_mapping
              LogStandardizedGender (run standardize_department st))
    as (_ & _ & _ & _ & Hf2).
  destruct (replace_block_spec "Department" dept_mapping
              LogStandardizedDepartment st) as (_ & _ & _ & Hd1 & _).
  fold standardize_gender in Hf2. fold standardize_department in Hd1.
  by rewrite Hf3, Hf2, Hd1.
Qed.

Lemma standardize_data_gender (st : Processor) :
  column "Gender" (rows (df (run standardize_data st))) =
  if bool_decide ("Gender" ∈ columns (df st))
  then replace gender_mapping (column "Gender" (rows (df st)))
  else column "Gender" (rows (df st)).
Proof.
  rewrite standardize_data_run.
  destruct (fix_negative_income_frame
              (run standardize_gender (run standardize_department st)))
    as (_ & _ & Hf3).
  destruct (replace_block_spec "Gender" gender_mapping
              LogStandardizedGender (run standardize_department st))
    as (_ & _ & _ & Hd2 & _).
  destruct (replace_block_spec "Department" dept_mapping
              LogStandardizedDepartment st) as (_ & Hc1 & _ & _ & Hf1).
  fold standardize_gender in Hd2. fold standardize_department in Hc1, Hf1.
  by rewrite Hf3, Hd2, Hc1, Hf1.
Qed.

(** X7. Standardize is idempotent on the frame: running the stage a
    second time, whether the first run returned or raised, leaves every
    row and column as the first run left them. *)
Theorem standardize_data_idempotent (st : Processor) :
  df (run standardize_data (run standardize_data st)) =
  df (run standardize_data st).
Proof.
  apply standardize_data_settled; [| | |done].
  - rewrite standardize_data_columns_eq, standardize_data_department.
    intros Hc. rewrite (bool_decide_eq_true_2 _ Hc).
    apply replace_idem, replace_dept_idem.
  - rewrite standardize_data_columns_eq, standardize_data_gender.
    intros Hc. rewrite (bool_decide_eq_true_2 _ Hc).
    apply replace_idem, replace_gender_idem.
  - rewrite standardize_data_run. intros Hc nums.
    by apply fix_negative_income_settled.
Qed.

(** ** Strings in a numeric column *)

Lemma to_numeric_string (x : list (option value)) (s : string) :
  Some (VStr s) ∈ x → to_numeric x = Raise TypeError.
Proof.
  unfold to_numeric. induction x as [|o x IH]; intros Hin;
    [by apply elem_of_nil in Hin|].
  apply elem_of_cons in Hin as [<-|Hin]; [done|].
  simpl. rewrite IH by done. by destruct o as [[q|s']|].
Qed.

(** X8. A string in the MonthlyIncome column makes Standardize raise a
    [TypeError] at its income block; by then the Department and Gender
    blocks have run, and the income column is left as it was.  Derive
    raises the same error on such a frame once the age block is through. *)
Theorem non_numeric_income_raises (st : Processor) (s : string) :
  "MonthlyIncome" ∈ columns (df st) →
  Some (VStr s) ∈ column "MonthlyIncome" (rows (df st)) →
  outcome standardize_data st = Raise TypeError
  ∧ column "MonthlyIncome" (rows (df (run standardize_data st))) =
    column "MonthlyIncome" (rows (df st))
  ∧ run standardize_data st =
    run standardize_gender (run standardize_department st)
  ∧ outcome create_income_category st = Raise TypeError
  ∧ run create_income_category st = st.
Proof.
  intros Hc Hs.
  destruct (replace_block_spec "Department" dept_mapping
              LogStandardizedDepartment st) as (Ho1 & Hc1 & _ & _ & Hf1).
  destruct (replace_block_spec "Gender" gender_mapping
              LogStandardizedGender (run standardize_department st))
    as (Ho2 & Hc2 & _ & _ & Hf2).
  fold standardize_department in Ho1, Hc1, Hf1.
  fold standardize_gender in Ho2, Hc2, Hf2.
  set (st2 := run standardize_gender (run standardize_department st)) in *.
  assert (Hcol2 : column "MonthlyIncome" (rows (df st2)) =
                  column "MonthlyIncome" (rows (df st)))
    by (by rewrite Hf2, Hf1).
  assert (Hfix : fix_negative_income st2 = (st2, Raise TypeError)).
  { unfold fix_negative_income, bind, get_df, when, lift. simpl.
    rewrite Hc2, Hc1, (bool_decide_eq_true_2 _ Hc), Hcol2.
    by rewrite (to_numeric_string _ s Hs). }
  assert (Hrun : run standardize_data st = st2).
  { rewrite standardize_data_run. fold st2. unfold run. by rewrite Hfix. }
  split_and!.
  - unfold standardize_data.
    rewrite outcome_bind, Ho1, outcome_bind, Ho2. fold st2.
    unfold outcome. by rewrite Hfix.
  - by rewrite Hrun.
  - exact Hrun.
  - unfold create_income_category, outcome, bind, get_df, when, lift. simpl.
    rewrite (bool_decide_eq_true_2 _ Hc). by rewrite (to_numeric_string _ s Hs).
  - unfold create_income_category, run, bind, get_df, when, lift. simpl.
    rewrite (bool_decide_eq_true_2 _ Hc). by rewrite (to_numeric_string _ s Hs).
Qed.

Lemma non_numeric_income_raises_witness :
  Some (VStr "unknown") ∈
    column "MonthlyIncome" (rows (df (loaded text_income_frame)))
  ∧ outcome standardize_data (loaded text_income_frame) = Raise TypeError
  ∧ column "Department"
      (rows (df (run standardize_data (loaded text_income_frame)))) =
    [Some (VStr "Sales"); Some (VStr "Sales")].
Proof.
  assert (Hs : Some (VStr "unknown") ∈
            column "MonthlyIncome" (rows (df (loaded text_income_frame))))
    by (vm_compute; left).
  destruct (non_numeric_income_raises (loaded text_income_frame) "unknown")
    as (Hraise & _ & Hrun & _); [decide_goal|exact Hs|].
  split_and!; [exact Hs|exact Hraise|].
  rewrite Hrun. reflexivity.
Defined.

(** ** Derive: when the income cut is accepted *)





(** ** The columns a stage writes *)

Lemma frame_bind (c : string) (m k : M unit) :
  (∀ st, column c (rows (df (run m st))) = column c (rows (df st))) →
  (∀ st, column c (rows (df (run k st))) = column c (rows (df st))) →
  ∀ st, column c (rows (df (run (do _ <- m; k) st))) = column c (rows (df st)).
Proof.
  intros Hm Hk st. rewrite run_bind.
  destruct (outcome m st) as [[]|err]; [|apply Hm].
  by rewrite Hk, Hm.
Qed.

Lemma fill_missing_income_frame (st : Processor) (c : string) :
  "MonthlyIncome" ≠ c →
  column c (rows (df (run fill_missing_income st))) = column c (rows (df st)).
Proof.
  intros Hne.
  unfold fill_missing_income, run, bind, get_df, when, lift, groupby, set_df,
    log_append.
  simpl. repeat (case_bool_decide; simpl; [|done]).
  destruct (groupby_transform _ _ _ _) as [filled|err] eqn:Hfill; simpl; [|done].
  apply length_groupby_transform in Hfill.
  exact (column_set_column_ne "MonthlyIncome" c filled (df st) Hne Hfill).
Qed.

Lemma create_age_group_frame_all (st : Processor) (c : string) :
  "AgeGroup" ≠ c →
  column c (rows (df (run create_age_group st))) = column c (rows (df st)).
Proof.
  intros Hne.
  unfold create_age_group, run, bind, get_df, when, lift, set_df, log_append.
  simpl. case_bool_decide; simpl; [|done].
  destruct (to_numeric _) as [nums|err] eqn:Hnum; simpl; [|done].
  set (cells := _ <$> nums).
  apply (column_set_column_ne "AgeGroup" c cells (df st) Hne).
  unfold cells. rewrite length_fmap.
  apply length_to_numeric in Hnum. by rewrite Hnum, length_column.
Qed.

Lemma create_income_category_frame (st : Processor) (c : string) :
  "IncomeCategory" ≠ c →
  column c (rows (df (run create_income_category st))) = column c (rows (df st)).
Proof.
  intros Hne.
  unfold create_income_category, run, bind, get_df, when, lift, set_df,
    log_append.
  simpl. case_bool_decide; simpl; [|done].
  destruct (to_numeric _) as [nums|err] eqn:Hnum; simpl; [|done].
  destruct (cut nums (income_bins nums) income_labels) as [cells|err] eqn:Hcut;
    simpl; [|done].
  apply (column_set_column_ne "IncomeCategory" c cells (df st) Hne).
  apply length_cut in Hcut. apply length_to_numeric in Hnum.
  by rewrite Hcut, Hnum, length_column.
Qed.

(** X10. Each stage writes only its own columns, whether it returns or
    raises: Assess writes none, Impute only MonthlyIncome and
    JobSatisfaction, Standardize only Department, Gender and
    MonthlyIncome, Derive only AgeGroup and IncomeCategory; every other
    column holds the same cells afterwards. *)
Theorem stages_write_only_their_columns (st : Processor) (c : string) :
  column c (rows (df (run data_quality_assessment st))) = column c (rows (df st))
  ∧ (c ∉ ["MonthlyIncome"; "JobSatisfaction"] →
     column c (rows (df (run handle_missing_values st))) =
     column c (rows (df st)))
  ∧ (c ∉ ["Department"; "Gender"; "MonthlyIncome"] →
     column c (rows (df (run standardize_data st))) = column c (rows (df st)))
  ∧ (c ∉ ["AgeGroup"; "IncomeCategory"] →
     column c (rows (df (run create_derived_features st))) =
     column c (rows (df st))).
Proof.
  split_and!.
  - destruct (data_quality_assessment_log st) as (entries & ->). done.
  - rewrite !not_elem_of_cons. intros (H1 & H2 & _).
    apply frame_bind; intros st'.
    + by apply fill_missing_income_frame.
    + by apply fill_missing_satisfaction_frame.
  - rewrite !not_elem_of_cons. intros (H1 & H2 & H3 & _).
    apply frame_bind; [|apply frame_bind]; intros st'.
    + by apply (replace_block_spec "Department" dept_mapping
                  LogStandardizedDepartment st').
    + by apply (replace_block_spec "Gender" gender_mapping
                  LogStandardizedGender st').
    + by apply fix_negative_income_frame.
  - rewrite !not_elem_of_cons. intros (H1 & H2 & _).
    apply frame_bind; intros st'.
    + by apply create_age_group_frame_all.
    + by apply create_income_category_frame.
Qed.

(** ** An input without rows *)

Lemma rows_nil_length (d : DataFrame) : length (rows d) = 0 → rows d = [].
Proof. by destruct (rows d). Qed.

Lemma handle_missing_values_no_rows (st : Processor) :
  rows (df st) = [] → handle_missing_values st = (st, Ok tt).
Proof.
  intros Hrows.
  unfold handle_missing_values, fill_missing_income, fill_missing_satisfaction,
    bind, get_df, when.
  simpl. rewrite Hrows. simpl.
  repeat (case_bool_decide; simpl); try done;
    exfalso; rewrite Hrows in *; unfold count_missing, sum_bool in *;
    simpl in *; lia.
Qed.

Lemma standardize_data_no_rows (st : Processor) :
  rows (df st) = [] → outcome standardize_data st = Ok tt.
Proof.
  intros Hrows. unfold standardize_data.
  destruct (replace_block_spec "Department" dept_mapping
              LogStandardizedDepartment st) as (Ho1 & _ & Hl1 & _).
  destruct (replace_block_spec "Gender" gender_mapping
              LogStandardizedGender (run standardize_department st))
    as (Ho2 & _ & Hl2 & _).
  fold standardize_department in Ho1, Hl1.
  fold standardize_gender in Ho2, Hl2.
  rewrite outcome_bind, Ho1, outcome_bind, Ho2.
  set (st2 := run standardize_gender (run standardize_department st)) in *.
  assert (Hrows2 : rows (df st2) = []).
  { apply rows_nil_length. by rewrite Hl2, Hl1, Hrows. }
  unfold fix_negative_income, outcome, bind, get_df, when, lift. simpl.
  rewrite Hrows2. simpl. by case_bool_decide.
Qed.

Lemma create_derived_features_no_rows (st : Processor) :
  rows (df st) = [] →
  outcome create_derived_features st =
  if bool_decide ("MonthlyIncome" ∈ columns (df st))
  then Raise (ValueError "bins must increase monotonically.")
  else Ok tt.
Proof.
  intros Hrows. unfold create_derived_features.
  assert (Hage : outcome create_age_group st = Ok tt).
  { unfold create_age_group, outcome, bind, get_df, when, lift. simpl.
    rewrite Hrows. simpl. by case_bool_decide. }
  rewrite outcome_bind, Hage.
  destruct (create_age_group_keeps st) as [(_ & _ & _ & Hpre & Hnew & _) Hlen].
  assert (Hrows1 : rows (df (run create_age_group st)) = []).
  { apply rows_nil_length. by rewrite Hlen, Hrows. }
  assert (Hmem : "MonthlyIncome" ∈ columns (df (run create_age_group st)) ↔
                 "MonthlyIncome" ∈ columns (df st)).
  { split.
    - intros Hin. by destruct (Hnew _ Hin) as [?|[?|?]].
    - intros Hin. destruct Hpre as [extra ->]. apply elem_of_app. by left. }
  unfold create_income_category, outcome, bind, get_df, when, lift. simpl.
  rewrite Hrows1. simpl.
  rewrite (bool_decide_ext _ _ Hmem). by case_bool_decide.
Qed.

Lemma after_deduplicate_state (raw : DataFrame) :
  ∃ entries,
    run remove_duplicates
      (run data_quality_assessment
         (run (load_data raw)
            (new_processor "data/raw/hr_data_raw.csv"
               "data/processed/hr_data_clean.csv"))) =
    mkProcessor "data/raw/hr_data_raw.csv" "data/processed/hr_data_clean.csv"
      (mkDataFrame (columns raw) (drop_duplicates (rows raw)))
      (length (rows raw), length (columns raw))
      ((LogLoaded (length (rows raw)) (length (columns raw)) ::
        LogFoundDuplicates (sum_bool (duplicated (rows raw))) :: entries) ++
       [LogRemovedDuplicates
          (length (rows raw) - length (drop_duplicates (rows raw)))]).
Proof.
  set (st1 := run (load_data raw) _).
  destruct (data_quality_assessment_log st1) as (entries & Hrun).
  exists entries.
  unfold run at 1, remove_duplicates, bind, get_df, set_df, log_append.
  rewrite Hrun. reflexivity.
Qed.

Lemma main_no_rows_outcome (raw : DataFrame) :
  rows raw = [] →
  (main raw).2 =
    (if bool_decide ("MonthlyIncome" ∈ columns raw)
     then Raise (ValueError "bins must increase monotonically.")
     else Raise ZeroDivisionError)
  ∧ ("MonthlyIncome" ∉ columns raw →
     last (processing_log (main raw).1) =
     Some (LogSaved "data/processed/hr_data_clean.csv")).
Proof.
  intros Hrows. rewrite main_after_deduplicate.
  destruct (after_deduplicate_state raw) as (entries & ->).
  rewrite Hrows. change (drop_duplicates []) with (@nil record).
  set (st3 := mkProcessor _ _ _ _ _).
  assert (Himp : handle_missing_values st3 = (st3, Ok tt))
    by (by apply handle_missing_values_no_rows).
  destruct (standardize_data_keeps st3)
    as [(_ & Hout4 & Hshape4 & Hpre4 & Hnew4 & _) Hlen4].
  set (st4 := run standardize_data st3) in *.
  assert (Hrows4 : rows (df st4) = []) by (by apply rows_nil_length).
  assert (Hstd : outcome standardize_data st3 = Ok tt)
    by (by apply standardize_data_no_rows).
  assert (Hmem : "MonthlyIncome" ∈ columns (df st4) ↔
                 "MonthlyIncome" ∈ columns raw).
  { split.
    - intros Hin. by destruct (Hnew4 _ Hin) as [?|[?|?]].
    - intros Hin. destruct Hpre4 as [extra ->]. apply elem_of_app. by left. }
  pose proof (create_derived_features_no_rows st4 Hrows4) as Hder.
  rewrite (bool_decide_ext _ _ Hmem) in Hder.
  destruct (create_derived_features_keeps st4)
    as [(_ & Hout5 & Hshape5 & _) _].
  set (st5 := run create_derived_features st4) in *.
  assert (Hsave : save_processed_data st5 =
            (mkProcessor (input_path st5) (output_path st5) (df st5)
               (original_shape st5)
               (processing_log st5 ++
                  [LogSaved "data/processed/hr_data_clean.csv"]), Ok tt)).
  { unfold save_processed_data, log_append. by rewrite Hout5, Hout4. }
  assert (Hchain : ∀ k : M unit,
    (do _ <- handle_missing_values; do _ <- standardize_data; k) st3 = k st4).
  { intros k. unfold bind at 1. rewrite Himp.
    by rewrite (bind_ok standardize_data _ _ tt). }
  rewrite Hchain. clear Hchain.
  split.
  - unfold bind at 1.
    destruct (create_derived_features st4) as [st5' [[]|e]] eqn:Hd;
      unfold outcome in Hder; rewrite Hd in Hder; simpl in Hder.
    + case_bool_decide; [done|].
      assert (st5' = st5) as -> by (unfold st5, run; by rewrite Hd).
      unfold bind. rewrite Hsave. unfold generate_processing_report. simpl.
      rewrite Hshape5, Hshape4. done.
    + case_bool_decide; [|done]. by rewrite Hder.
  - intros Hno. unfold bind at 1.
    destruct (create_derived_features st4) as [st5' [[]|e]] eqn:Hd;
      unfold outcome in Hder; rewrite Hd in Hder; simpl in Hder;
      rewrite bool_decide_eq_false_2 in Hder by done; [|done].
    assert (st5' = st5) as -> by (unfold st5, run; by rewrite Hd).
    unfold bind. rewrite Hsave. unfold generate_processing_report. simpl.
    rewrite Hshape5, Hshape4. simpl. by rewrite last_snoc.
Qed.

(** X11. The pipeline never completes on an input without rows.  When
    the input has a MonthlyIncome column the Derive stage raises a
    [ValueError], because the quartiles of an empty column are undefined;
    otherwise the run gets as far as saving the frame and then raises
    [ZeroDivisionError] in the report, at the retention ratio. *)
Theorem main_no_rows_raises (raw : DataFrame) :
  rows raw = [] →
  (if bool_decide ("MonthlyIncome" ∈ columns raw)
   then ∃ msg, (main raw).2 = Raise (ValueError msg)
   else (main raw).2 = Raise ZeroDivisionError
        ∧ last (processing_log (main raw).1) =
          Some (LogSaved "data/processed/hr_data_clean.csv")).
Proof.
  intros Hrows. destruct (main_no_rows_outcome raw Hrows) as [Hout Hlog].
  case_bool_decide as Hc.
  - by eexists.
  - split; [done|by apply Hlog].
Qed.

Lemma main_no_rows_raises_witness :
  rows header_only_frame = []
  ∧ ∃ msg, (main header_only_frame).2 = Raise (ValueError msg).
Proof.
  split; [reflexivity|].
  exact (main_no_rows_raises header_only_frame eq_refl).
Defined.

(** ** Impute: when no income stays missing *)

Lemma median_is_Some (cells : list (option Qc)) :
  dropna cells ≠ [] → is_Some (median cells).
Proof.
  intros Hne. unfold median, sort_values.
  set (s := merge_sort Qcle (dropna cells)).
  assert (Hlen : length s = length (dropna cells))
    by (unfold s; by rewrite merge_sort_Permutation).
  assert (Hpos : 0 < length s)
    by (rewrite Hlen; destruct (dropna cells); [done|simpl; lia]).
  rewrite bool_decide_eq_false_2 by lia.
  assert (Hhalf : length s / 2 < length s) by (apply Nat.div_lt; lia).
  destruct (Nat.odd (length s)).
  - by apply lookup_lt_is_Some.
  - destruct (lookup_lt_is_Some_2 s (length s / 2 - 1)) as [a ->]; [lia|].
    destruct (lookup_lt_is_Some_2 s (length s / 2)) as [b ->]; [lia|].
    by eexists.
Qed.

(** X12. When every row has a job role and every job role has at least
    one row with an income, the income block of Impute (on a numeric
    income column) succeeds and leaves no income missing, and every
    income that was present is unchanged. *)
Theorem fill_missing_income_complete (st : Processor) :
  "MonthlyIncome" ∈ columns (df st) →
  "JobRole" ∈ columns (df st) →
  is_numeric (column "MonthlyIncome" (rows (df st))) →
  (∀ r, r ∈ rows (df st) →
     ∃ k r' q, r !! "JobRole" = Some k ∧ r' ∈ rows (df st)
               ∧ r' !! "JobRole" = Some k
               ∧ r' !! "MonthlyIncome" = Some (VNum q)) →
  outcome fill_missing_income st = Ok tt
  ∧ count_missing "MonthlyIncome" (rows (df (run fill_missing_income st))) = 0
  ∧ ∀ i r v, rows (df st) !! i = Some r → r !! "MonthlyIncome" = Some v →
             column "MonthlyIncome" (rows (df (run fill_missing_income st))) !! i =
             Some (Some v).
Proof.
  intros Hinc Hrole Hnum Hall.
  destruct (decide (0 < count_missing "MonthlyIncome" (rows (df st))))
    as [Hmiss|Hmiss].
  - assert (Hok : outcome fill_missing_income st = Ok tt
             ∧ column "MonthlyIncome" (rows (df (run fill_missing_income st))) =
               imputed_income (rows (df st)) <$> rows (df st)).
    { unfold fill_missing_income, run, outcome, bind, get_df, when, lift,
        groupby, set_df, log_append.
      simpl.
      rewrite (bool_decide_eq_true_2 _ Hinc), (bool_decide_eq_true_2 _ Hmiss),
        (bool_decide_eq_true_2 _ Hrole).
      simpl. rewrite groupby_transform_fill_with_median by done. simpl.
      split; [done|].
      set (cells := imputed_income (rows (df st)) <$> rows (df st)).
      apply (column_set_column_eq "MonthlyIncome" cells (df st)).
      unfold cells. by rewrite length_fmap. }
    destruct Hok as [Hok Hcol]. split_and!; [done| |].
    + apply count_missing_zero. rewrite Hcol.
      intros Hin. apply list_elem_of_fmap in Hin as (r & Hnone & Hr).
      destruct (Hall r Hr) as (k & r' & q & Hk & Hr' & Hk' & Hq).
      unfold imputed_income in Hnone. rewrite Hk in Hnone.
      destruct (r !! "MonthlyIncome") as [v|]; [done|].
      destruct (median_is_Some
                  (numbers_of (group "JobRole" "MonthlyIncome" (rows (df st)) k)))
        as [m Hm]; [|by rewrite Hm in Hnone].
      intros Hnil.
      assert (Hsome : q ∈ dropna
                (numbers_of (group "JobRole" "MonthlyIncome" (rows (df st)) k))).
      { unfold dropna, numbers_of, group, column.
        apply list_elem_of_omap. exists (Some q). split; [|done].
        apply list_elem_of_fmap. exists (Some (VNum q)). split; [done|].
        apply list_elem_of_fmap. exists r'. split; [done|].
        by apply list_elem_of_filter. }
      rewrite Hnil in Hsome. by apply elem_of_nil in Hsome.
    + intros i r v Hi Hv. rewrite Hcol, list_lookup_fmap, Hi. simpl.
      f_equal. unfold imputed_income.
      destruct (Hall r) as (k & _ & _ & -> & _);
        [by eapply list_elem_of_lookup_2|].
      by rewrite Hv.
  - assert (Hzero : count_missing "MonthlyIncome" (rows (df st)) = 0) by lia.
    unfold outcome, run. rewrite (fill_missing_income_noop st Hzero). simpl.
    split_and!; [done|done|].
    intros i r v Hi Hv. unfold column. by rewrite list_lookup_fmap, Hi, <- Hv.
Qed.

Lemma fill_missing_income_complete_witness :
  count_missing "MonthlyIncome" (rows fillable_frame) = 1
  ∧ outcome fill_missing_income (loaded fillable_frame) = Ok tt
  ∧ count_missing "MonthlyIncome"
      (rows (df (run fill_missing_income (loaded fillable_frame)))) = 0.
Proof.
  split; [reflexivity|].
  assert (Hnum : is_numeric
            (column "MonthlyIncome" (rows (df (loaded fillable_frame))))).
  { repeat constructor; intros s; discriminate. }
  destruct (fill_missing_income_complete (loaded fillable_frame))
    as (Hok & Hzero & _); [decide_goal|decide_goal|exact Hnum| |by split].
  intros r Hr. simpl in Hr.
  repeat (apply elem_of_cons in Hr as [->|Hr]);
    [| | |by apply elem_of_nil in Hr].
  - exists (VStr "Manager"),
      (rec_of [("JobRole", VStr "Manager"); ("MonthlyIncome", num 5000)]),
      (Q2Qc 5000).
    split_and!; [reflexivity|left|reflexivity|reflexivity].
  - exists (VStr "Manager"),
      (rec_of [("JobRole", VStr "Manager"); ("MonthlyIncome", num 5000)]),
      (Q2Qc 5000).
    split_and!; [reflexivity|left|reflexivity|reflexivity].
  - exists (VStr "Analyst"),
      (rec_of [("JobRole", VStr "Analyst"); ("MonthlyIncome", num 3000)]),
      (Q2Qc 3000).
    split_and!; [reflexivity|right; right; left|reflexivity|reflexivity].
Defined.

(** ** Derive: the age block as a whole *)

(** X13. On a frame with a numeric Age column the age block of Derive
    always succeeds (its bins are constants), adds or overwrites the
    AgeGroup column, and labels every row by the right-closed bins
    (0,30], (30,40], (40,50], (50,100]; a row without an age, and an age
    of 0 or less or above 100, gets no group. *)
Theorem create_age_group_right_closed (st : Processor) :
  "Age" ∈ columns (df st) →
  is_numeric (column "Age" (rows (df st))) →
  outcome create_age_group st = Ok tt
  ∧ column "AgeGroup" (rows (df (run create_age_group st))) =
    (fun o : option Qc => x ← o; VStr <$> age_group_right_closed x) <$>
      numbers_of (column "Age" (rows (df st)))
  ∧ "AgeGroup" ∈ columns (df (run create_age_group st))
  ∧ processing_log (run create_age_group st) =
    processing_log st ++ [LogCreatedAgeGroup].
Proof.
  intros Hc Hnum.
  unfold create_age_group, run, outcome, bind, get_df, when, lift, set_df,
    log_append.
  simpl. rewrite (bool_decide_eq_true_2 _ Hc).
  rewrite to_numeric_numbers_of by done. simpl.
  set (cells := _ <$> numbers_of _).
  assert (Hlen : length cells = length (rows (df st))).
  { unfold cells, numbers_of. by rewrite !length_fmap, length_column. }
  split_and!; [done| | |done].
  - transitivity cells;
      [exact (column_set_column_eq "AgeGroup" cells (df st) Hlen)|].
    unfold cells. apply list_fmap_ext. intros _ [x|] _; [|done].
    apply cut_age_right_closed.
  - case_bool_decide; [done|]. apply elem_of_app. right. left.
Qed.

Lemma create_age_group_right_closed_witness :
  is_numeric (column "Age" (rows (df (loaded ages_frame))))
  ∧ outcome create_age_group (loaded ages_frame) = Ok tt
  ∧ "AgeGroup" ∈ columns (df (run create_age_group (loaded ages_frame))).
Proof.
  assert (Hnum : is_numeric (column "Age" (rows (df (loaded ages_frame))))).
  { repeat constructor; intros s; discriminate. }
  destruct (create_age_group_right_closed (loaded ages_frame))
    as (Hok & _ & Hin & _); [decide_goal|exact Hnum|].
  split_and!; done.
Defined.

(** ** Persist: the path of the workbook *)





(** ** Impute: ties between most frequent values *)

Lemma string_leb_trans (s1 s2 s3 : string) :
  String.leb s1 s2 = true → String.leb s2 s3 = true → String.leb s1 s3 = true.
Proof.
  unfold String.leb. revert s2 s3.
  induction s1 as [|c1 s1 IH]; intros [|c2 s2] [|c3 s3]; simpl; try done.
  unfold Ascii.compare.
  destruct (N.compare_spec (Ascii.N_of_ascii c1) (Ascii.N_of_ascii c2));
    destruct (N.compare_spec (Ascii.N_of_ascii c2) (Ascii.N_of_ascii c3));
    destruct (N.compare_spec (Ascii.N_of_ascii c1) (Ascii.N_of_ascii c3));
    try done; try lia.
  apply IH.
Qed.

Lemma value_le_total : Total value_le.
Proof.
  intros [x|s] [y|t]; simpl; try tauto.
  - destruct (Qclt_le_dec x y) as [Hlt|Hle]; [left; by apply Qclt_le_weak|by right].
  - apply String.leb_total.
Qed.

Lemma value_le_trans : Transitive value_le.
Proof.
  intros [x|s] [y|t] [z|u]; simpl; try done.
  - apply Qcle_trans.
  - apply string_leb_trans.
Qed.

Lemma value_le_refl (v : value) : value_le v v.
Proof. destruct (value_le_total v v); done. Qed.

Lemma mode_least (cells : list (option value)) (m : value) (rest : list value) :
  mode cells = m :: rest →
  ∀ w, Some w ∈ cells → occurrences w cells = occurrences m cells →
       value_le m w.
Proof.
  unfold mode, occurrences.
  set (present := dropna cells).
  set (counts := value_counts present).
  set (best := max_list counts.*2).
  set (tied := (filter (fun p : value * nat => p.2 = best) counts).*1).
  intros Hsort w Hw Hocc.
  assert (Hcounts : ∀ w' n, (w', n) ∈ counts ↔
            w' ∈ present ∧ n = length (filter (fun x => x = w') present)).
  { intros w' n. unfold counts, value_counts. rewrite list_elem_of_fmap.
    split.
    - intros (x & Heq & Hin). injection Heq as Hx Hn. subst x n.
      rewrite elem_of_remove_dups in Hin. by split.
    - intros [Hin ->]. exists w'. by rewrite elem_of_remove_dups. }
  assert (Htied : ∀ w', w' ∈ tied ↔
            w' ∈ present ∧ length (filter (fun x => x = w') present) = best).
  { intros w'. unfold tied. rewrite list_elem_of_fmap. split.
    - intros ([x n] & -> & Hin). apply list_elem_of_filter in Hin as [Hn Hin].
      simpl in *. apply Hcounts in Hin as [Hin ->]. by split.
    - intros [Hin Hn].
      exists (w', length (filter (fun x => x = w') present)). split; [done|].
      apply list_elem_of_filter. split; [done|]. by apply Hcounts. }
  assert (Hm : m ∈ tied).
  { rewrite <- (merge_sort_Permutation value_le tied), Hsort. left. }
  assert (Hwt : w ∈ tied).
  { apply Htied. apply Htied in Hm as [_ Hbest]. split; [|congruence].
    unfold present, dropna. apply list_elem_of_omap. by exists (Some w). }
  rewrite <- (merge_sort_Permutation value_le tied), Hsort in Hwt.
  pose proof (StronglySorted_merge_sort value_le
                (Transitive0 := value_le_trans) (Total0 := value_le_total) tied)
    as Hss.
  rewrite Hsort in Hss. apply StronglySorted_inv in Hss as [_ Hall].
  apply elem_of_cons in Hwt as [->|Hwt]; [apply value_le_refl|].
  by eapply Forall_forall in Hall.
Qed.


(** ** Impute: which incomes the income block fills *)

Lemma median_is_Some_iff (cells : list (option Qc)) :
  is_Some (median cells) ↔ dropna cells ≠ [].
Proof.
  split; [|apply median_is_Some].
  intros [m Hm] Hnil. unfold median, sort_values in Hm.
  rewrite Hnil in Hm. vm_compute in Hm. discriminate Hm.
Qed.

Lemma group_has_income (rs : list record) (k : value) :
  dropna (numbers_of (group "JobRole" "MonthlyIncome" rs k)) ≠ [] ↔
  ∃ r q, r ∈ rs ∧ r !! "JobRole" = Some k ∧ r !! "MonthlyIncome" = Some (VNum q).
Proof.
  split.
  - intros Hne.
    destruct (dropna (numbers_of (group "JobRole" "MonthlyIncome" rs k)))
      as [|q qs] eqn:Hdrop; [done|].
    assert (Hq : q ∈ dropna (numbers_of (group "JobRole" "MonthlyIncome" rs k)))
      by (rewrite Hdrop; left).
    unfold dropna, numbers_of, group, column in Hq.
    apply list_elem_of_omap in Hq as (o & Ho & Hid).
    apply list_elem_of_fmap in Ho as (o' & -> & Ho').
    apply list_elem_of_fmap in Ho' as (r & -> & Hr).
    apply list_elem_of_filter in Hr as [Hk Hr].
    exists r, q. split_and!; [done|done|].
    destruct (r !! "MonthlyIncome") as [[q'|s]|]; simpl in Hid; try done.
    by injection Hid as ->.
  - intros (r & q & Hr & Hk & Hq) Hnil.
    assert (Hin : q ∈ dropna (numbers_of (group "JobRole" "MonthlyIncome" rs k))).
    { unfold dropna, numbers_of, group, column.
      apply list_elem_of_omap. exists (Some q). split; [|done].
      apply list_elem_of_fmap. exists (Some (VNum q)). split; [done|].
      apply list_elem_of_fmap. exists r. split; [done|].
      by apply list_elem_of_filter. }
    rewrite Hnil in Hin. by apply elem_of_nil in Hin.
Qed.

(** X4. On a frame with a JobRole column and a numeric MonthlyIncome
    column that has missing cells, the income block of Impute succeeds,
    changes no other column, logs the number of cells that were missing
    before, and writes row by row: nothing for a row without a job role
    (even when that row had an income); the row's own income when it has
    a job role and an income; and for a row with a job role but no
    income a value exactly when some row with the same job role has an
    income, the same value for every such row of that job role. *)
Theorem fill_missing_income_rows (st : Processor) :
  "MonthlyIncome" ∈ columns (df st) →
  "JobRole" ∈ columns (df st) →
  0 < count_missing "MonthlyIncome" (rows (df st)) →
  is_numeric (column "MonthlyIncome" (rows (df st))) →
  outcome fill_missing_income st = Ok tt
  ∧ (∀ c, "MonthlyIncome" ≠ c →
       column c (rows (df (run fill_missing_income st))) =
       column c (rows (df st)))
  ∧ processing_log (run fill_missing_income st) =
    processing_log st ++
      [LogFilledIncome (count_missing "MonthlyIncome" (rows (df st)))]
  ∧ ∀ i r, rows (df st) !! i = Some r →
      ∃ cell,
        column "MonthlyIncome" (rows (df (run fill_missing_income st))) !! i =
          Some cell
        ∧ (r !! "JobRole" = None → cell = None)
        ∧ (∀ v, is_Some (r !! "JobRole") →
                r !! "MonthlyIncome" = Some v → cell = Some v)
        ∧ (∀ k, r !! "JobRole" = Some k → r !! "MonthlyIncome" = None →
             (is_Some cell ↔
                ∃ r' q, r' ∈ rows (df st) ∧ r' !! "JobRole" = Some k
                        ∧ r' !! "MonthlyIncome" = Some (VNum q))
             ∧ ∀ j r2, rows (df st) !! j = Some r2 →
                 r2 !! "JobRole" = Some k → r2 !! "MonthlyIncome" = None →
                 column "MonthlyIncome"
                   (rows (df (run fill_missing_income st))) !! j = Some cell).
Proof.
  intros Hinc Hrole Hmiss Hnum.
  assert (Hcol :
    column "MonthlyIncome" (rows (df (run fill_missing_income st))) =
    imputed_income (rows (df st)) <$> rows (df st)).
  { unfold fill_missing_income, run, bind, get_df, when, lift, groupby, set_df,
      log_append.
    simpl.
    rewrite (bool_decide_eq_true_2 _ Hinc), (bool_decide_eq_true_2 _ Hmiss),
      (bool_decide_eq_true_2 _ Hrole).
    simpl. rewrite groupby_transform_fill_with_median by done. simpl.
    set (cells := imputed_income (rows (df st)) <$> rows (df st)).
    apply (column_set_column_eq "MonthlyIncome" cells (df st)).
    unfold cells. by rewrite length_fmap. }
  split_and!.
  - unfold fill_missing_income, outcome, bind, get_df, when, lift, groupby,
      set_df, log_append.
    simpl.
    rewrite (bool_decide_eq_true_2 _ Hinc), (bool_decide_eq_true_2 _ Hmiss),
      (bool_decide_eq_true_2 _ Hrole).
    simpl. by rewrite groupby_transform_fill_with_median.
  - intros c Hne. by apply fill_missing_income_frame.
  - unfold fill_missing_income, run, bind, get_df, when, lift, groupby, set_df,
      log_append.
    simpl.
    rewrite (bool_decide_eq_true_2 _ Hinc), (bool_decide_eq_true_2 _ Hmiss),
      (bool_decide_eq_true_2 _ Hrole).
    simpl. by rewrite groupby_transform_fill_with_median.
  - intros i r Hi. exists (imputed_income (rows (df st)) r).
    rewrite Hcol, list_lookup_fmap, Hi. split_and!; [done| | |].
    + intros Hk. unfold imputed_income. by rewrite Hk.
    + intros v [k Hk] Hv. unfold imputed_income. by rewrite Hk, Hv.
    + intros k Hk Hv. unfold imputed_income at 1 2. rewrite Hk, Hv. split.
      * rewrite <- group_has_income, <- median_is_Some_iff.
        by rewrite fmap_is_Some.
      * intros j r2 Hj Hk2 Hv2. rewrite list_lookup_fmap, Hj. simpl.
        unfold imputed_income. by rewrite Hk2, Hv2, Hk, Hv.
Qed.

Lemma fill_missing_income_rows_witness :
  is_numeric (column "MonthlyIncome" (rows (df (loaded missing_group_frame))))
  ∧ count_missing "MonthlyIncome" (rows (df (loaded missing_group_frame))) = 3
  ∧ outcome fill_missing_income (loaded missing_group_frame) = Ok tt.
Proof.
  assert (Hnum : is_numeric
            (column "MonthlyIncome" (rows (df (loaded missing_group_frame))))).
  { repeat constructor; intros s; discriminate. }
  split; [exact Hnum|]. split; [reflexivity|].
  apply (fill_missing_income_rows (loaded missing_group_frame)).
  - decide_goal.
  - decide_goal.
  - vm_compute. lia.
  - exact Hnum.
Defined.

(** ** Impute: the satisfaction block under either pandas *)

Lemma fill_missing_satisfaction_under_false (st : Processor) :
  fill_missing_satisfaction_under false st = fill_missing_satisfaction st.
Proof.
  unfold fill_missing_satisfaction_under, fill_missing_satisfaction, bind,
    get_df, when, lift.
  simpl. repeat (case_bool_decide; [|done]).
  by destruct (getitem0 _).
Qed.

Lemma fill_missing_satisfaction_under_run (copy_on_write : bool)
    (st : Processor) (m : value) (rest : list value) :
  "JobSatisfaction" ∈ columns (df st) →
  mode (column "JobSatisfaction" (rows (df st))) = m :: rest →
  fill_missing_satisfaction_under copy_on_write st =
  if bool_decide (0 < count_missing "JobSatisfaction" (rows (df st)))
  then
    (mkProcessor (input_path st) (output_path st)
       (if copy_on_write then df st
        else set_column "JobSatisfaction"
               (fillna (Some m) (column "JobSatisfaction" (rows (df st))))
               (df st))
       (original_shape st)
       (processing_log st ++
          [LogFilledSatisfaction
             (count_missing "JobSatisfaction" (rows (df st))) m]),
     Ok tt)
  else (st, Ok tt).
Proof.
  intros Hcol Hmode.
  unfold fill_missing_satisfaction_under, bind, get_df, when, lift, set_df,
    log_append.
  simpl. rewrite (bool_decide_eq_true_2 _ Hcol), Hmode.
  case_bool_decide; [|done]. simpl. by destruct copy_on_write.
Qed.

Lemma fillna_present {A} (v : option A) (cells : list (option A)) (i : nat) (x : A) :
  cells !! i = Some (Some x) → fillna v cells !! i = Some (Some x).
Proof. intros Hi. unfold fillna. by rewrite list_lookup_fmap, Hi. Qed.

(** X5. On a frame whose JobSatisfaction column has at least one present
    cell, the satisfaction block of Impute succeeds under either pandas
    and changes no other column; it picks a value [m] that occurs in the
    column at least as often as any other value, logs it when a cell was
    missing, and leaves every present cell as it was.  Where the chained
    in-place [fillna] writes through (pandas before 3) the column becomes
    the old one with its missing cells filled with [m]; under
    copy-on-write (pandas 3) the column stays as it was. *)
Theorem fill_missing_satisfaction_mode (copy_on_write : bool)
    (st : Processor) (v : value) :
  "JobSatisfaction" ∈ columns (df st) →
  Some v ∈ column "JobSatisfaction" (rows (df st)) →
  (∀ st', fill_missing_satisfaction_under false st' =
          fill_missing_satisfaction st')
  ∧ outcome (fill_missing_satisfaction_under copy_on_write) st = Ok tt
  ∧ (∀ c, "JobSatisfaction" ≠ c →
       column c
         (rows (df (run (fill_missing_satisfaction_under copy_on_write) st))) =
       column c (rows (df st)))
  ∧ ∃ m,
      Some m ∈ column "JobSatisfaction" (rows (df st))
      ∧ (∀ w, occurrences w (column "JobSatisfaction" (rows (df st)))
              ≤ occurrences m (column "JobSatisfaction" (rows (df st))))
      ∧ column "JobSatisfaction"
          (rows (df (run (fill_missing_satisfaction_under copy_on_write) st))) =
        (if copy_on_write then column "JobSatisfaction" (rows (df st))
         else fillna (Some m) (column "JobSatisfaction" (rows (df st))))
      ∧ (∀ i x, column "JobSatisfaction" (rows (df st)) !! i = Some (Some x) →
           column "JobSatisfaction"
             (rows (df (run (fill_missing_satisfaction_under copy_on_write) st)))
             !! i = Some (Some x))
      ∧ processing_log
          (run (fill_missing_satisfaction_under copy_on_write) st) =
        processing_log st ++
          (if bool_decide
                (0 < count_missing "JobSatisfaction" (rows (df st)))
           then [LogFilledSatisfaction
                   (count_missing "JobSatisfaction" (rows (df st))) m]
           else []).
Proof.
  intros Hcol Hv.
  destruct (mode_head _ v Hv) as (m & rest & Hmode & Hm & Hmax).
  pose proof (fill_missing_satisfaction_under_run copy_on_write st m rest
                Hcol Hmode) as Hrun.
  set (cells := fillna (Some m) (column "JobSatisfaction" (rows (df st)))) in *.
  assert (Hlen : length cells = length (rows (df st)))
    by (unfold cells; by rewrite length_fillna, length_column).
  assert (Hafter :
    column "JobSatisfaction"
      (rows (df (run (fill_missing_satisfaction_under copy_on_write) st))) =
    if copy_on_write then column "JobSatisfaction" (rows (df st)) else cells).
  { unfold run. rewrite Hrun. case_bool_decide as Hmiss; simpl.
    - destruct copy_on_write; [done|].
      exact (column_set_column_eq "JobSatisfaction" cells (df st) Hlen).
    - destruct copy_on_write; [done|].
      unfold cells. symmetry. apply fillna_no_missing, count_missing_zero. lia. }
  split_and!.
  - apply fill_missing_satisfaction_under_false.
  - unfold outcome. rewrite Hrun. by case_bool_decide.
  - intros c Hne. unfold run. rewrite Hrun. case_bool_decide; simpl; [|done].
    destruct copy_on_write; [done|].
    exact (column_set_column_ne "JobSatisfaction" c cells (df st) Hne Hlen).
  - exists m. split_and!; [done|done|exact Hafter| |].
    + intros i x Hi. rewrite Hafter. destruct copy_on_write; [done|].
      by apply fillna_present.
    + unfold run. rewrite Hrun. case_bool_decide; simpl; [done|].
      by rewrite app_nil_r.
Qed.

Lemma fill_missing_satisfaction_mode_witness :
  Some (num 3) ∈ column "JobSatisfaction" (rows (df (loaded complete_income_frame)))
  ∧ count_missing "JobSatisfaction" (rows (df (loaded complete_income_frame))) = 1
  ∧ outcome (fill_missing_satisfaction_under true) (loaded complete_income_frame) =
    Ok tt
  ∧ outcome (fill_missing_satisfaction_under false) (loaded complete_income_frame) =
    Ok tt.
Proof.
  assert (Hv : Some (num 3) ∈
            column "JobSatisfaction" (rows (df (loaded complete_income_frame))))
    by (vm_compute; left).
  assert (Hc : "JobSatisfaction" ∈ columns (df (loaded complete_income_frame)))
    by decide_goal.
  split; [exact Hv|]. split; [reflexivity|]. split.
  - exact (proj1 (proj2 (fill_missing_satisfaction_mode true
                           (loaded complete_income_frame) (num 3) Hc Hv))).
  - exact (proj1 (proj2 (fill_missing_satisfaction_mode false
                           (loaded complete_income_frame) (num 3) Hc Hv))).
Defined.

(** X15. When the JobSatisfaction column has missing cells, the value
    that the satisfaction block of Impute logs (and, where the in-place
    [fillna] writes through, puts in the missing cells) is a most
    frequent value of the column, and among several values tied for most
    frequent it is the least in the order in which [mode] lists its
    result (numbers by size, strings lexicographically).  This holds
    under either pandas. *)
Theorem fill_missing_satisfaction_tie_break (copy_on_write : bool)
    (st : Processor) (v : value) :
  "JobSatisfaction" ∈ columns (df st) →
  Some v ∈ column "JobSatisfaction" (rows (df st)) →
  0 < count_missing "JobSatisfaction" (rows (df st)) →
  ∃ m,
    processing_log (run (fill_missing_satisfaction_under copy_on_write) st) =
      processing_log st ++
        [LogFilledSatisfaction
           (count_missing "JobSatisfaction" (rows (df st))) m]
    ∧ column "JobSatisfaction"
        (rows (df (run (fill_missing_satisfaction_under copy_on_write) st))) =
      (if copy_on_write then column "JobSatisfaction" (rows (df st))
       else fillna (Some m) (column "JobSatisfaction" (rows (df st))))
    ∧ Some m ∈ column "JobSatisfaction" (rows (df st))
    ∧ (∀ w, occurrences w (column "JobSatisfaction" (rows (df st)))
            ≤ occurrences m (column "JobSatisfaction" (rows (df st))))
    ∧ ∀ w, Some w ∈ column "JobSatisfaction" (rows (df st)) →
           occurrences w (column "JobSatisfaction" (rows (df st))) =
           occurrences m (column "JobSatisfaction" (rows (df st))) →
           value_le m w.
Proof.
  intros Hcol Hv Hmiss.
  destruct (mode_head _ v Hv) as (m & rest & Hmode & Hm & Hmax).
  pose proof (fill_missing_satisfaction_under_run copy_on_write st m rest
                Hcol Hmode) as Hrun.
  rewrite (bool_decide_eq_true_2 _ Hmiss) in Hrun.
  exists m. unfold run. rewrite Hrun. simpl.
  split_and!; [done| |done|done|by eapply mode_least].
  destruct copy_on_write; [done|].
  set (cells := fillna _ _).
  apply (column_set_column_eq "JobSatisfaction" cells (df st)).
  unfold cells. by rewrite length_fillna, length_column.
Qed.

Lemma fill_missing_satisfaction_tie_break_witness :
  count_missing "JobSatisfaction" (rows tied_satisfaction_frame) = 1
  ∧ occurrences (num 4) (column "JobSatisfaction" (rows tied_satisfaction_frame)) =
    occurrences (num 2) (column "JobSatisfaction" (rows tied_satisfaction_frame))
  ∧ ∃ m,
      processing_log
        (run (fill_missing_satisfaction_under true)
           (loaded tied_satisfaction_frame)) =
      processing_log (loaded tied_satisfaction_frame) ++
        [LogFilledSatisfaction 1 m]
      ∧ Some m ∈ column "JobSatisfaction"
                   (rows (df (loaded tied_satisfaction_frame)))
      ∧ ∀ w, Some w ∈ column "JobSatisfaction"
                        (rows (df (loaded tied_satisfaction_frame))) →
             occurrences w
               (column "JobSatisfaction"
                  (rows (df (loaded tied_satisfaction_frame)))) =
             occurrences m
               (column "JobSatisfaction"
                  (rows (df (loaded tied_satisfaction_frame)))) →
             value_le m w.
Proof.
  split; [reflexivity|]. split; [vm_compute; reflexivity|].
  destruct (fill_missing_satisfaction_tie_break true
              (loaded tied_satisfaction_frame) (num 4))
    as (m & Hlog & _ & Hm & _ & Hleast).
  - decide_goal.
  - vm_compute. left.
  - vm_compute. lia.
  - exists m. split_and!; [exact Hlog|exact Hm|exact Hleast].
Defined.
